(** * Smart File Converter (app.py): a shallow embedding and its properties

    The program is one Streamlit script.  For every uploaded file it reads
    the extension, parses the file with pandas, optionally removes duplicate
    rows, optionally fills missing cells, optionally draws a chart and, on a
    button press, serialises the table and offers it for download.

    The embedding follows the script block by block.  A Python [str] is a
    Rocq [string] holding the UTF-8 code units of the text.
    [os.path.splitext] and [str.replace] with the lower-cased extension act
    on code units; [str.lower] itself, which knows all of Unicode, is a
    field of [PythonAPI], and [PyStr.lower] is its restriction to ASCII
    letters.  pandas and Streamlit are outside the repository: the readers,
    the writers for CSV and Excel, the dtype selection, the key under which
    [duplicated] compares a cell, the refusal of [fillna] and the widget
    values are fields of two interface records, while the operations the
    properties are about ([duplicated], [drop_duplicates], [isnull], [sum],
    [fillna], [to_json], [empty], [head]) are written out after the
    documented behaviour of pandas.

    The script is given twice: [loop_body] and [for_loop] are the iteration
    and the loop as long as no call outside the two [try] blocks raises;
    [iteration], [script_loop] and [main] add the three calls that can (a
    repeated widget name, [duplicated] on an unhashable cell, [fillna]
    refusing the text) and end a run with the exception. *)

From Stdlib Require Import String Ascii ZArith Lia.
From stdpp Require Import base decidable list strings gmap.

#[local] Arguments String.append !_ _ / : simpl nomatch.


(** ** Python string operations used by the script *)

Module PyStr.

(** [c.lower()] for one code unit: 'A'..'Z' move to 'a'..'z'. *)
Definition lower_char (c : ascii) : ascii :=
  let n := nat_of_ascii c in
  if (65 <=? n)%nat && (n <=? 90)%nat then ascii_of_nat (n + 32) else c.

(** [s.lower()] *)
Fixpoint lower (s : string) : string :=
  match s with
  | EmptyString => EmptyString
  | String c s' => String (lower_char c) (lower s')
  end.

(** [s.rfind(c)] for a one-character [c]: the highest index holding [c],
    or -1. *)
Fixpoint rfind (s : string) (c : ascii) : Z :=
  match s with
  | EmptyString => (-1)%Z
  | String a s' =>
      let i := rfind s' c in
      if (0 <=? i)%Z then (i + 1)%Z
      else if Ascii.eqb a c then 0%Z else (-1)%Z
  end.

(** [s[:n]] and [s[n:]] for [n >= 0]. *)
Fixpoint slice_to (n : nat) (s : string) : string :=
  match n, s with
  | S n', String c s' => String c (slice_to n' s')
  | _, _ => EmptyString
  end.

Fixpoint slice_from (n : nat) (s : string) : string :=
  match n, s with
  | S n', String _ s' => slice_from n' s'
  | _, _ => s
  end.

(** The [while filenameIndex < dotIndex] loop of [genericpath._splitext]:
    the first character before the last dot that is not itself a dot makes
    the split happen at the last dot; a name made of leading dots only has
    no extension.  [n] counts the iterations left,
    [dotIndex - filenameIndex]. *)
Fixpoint splitext_loop (n : nat) (p : string) (filenameIndex dotIndex : nat)
  : string * string :=
  match n with
  | O => (p, EmptyString)
  | S n' =>
      match String.get filenameIndex p with
      | Some "."%char => splitext_loop n' p (S filenameIndex) dotIndex
      | _ => (slice_to dotIndex p, slice_from dotIndex p)
      end
  end.

(** [os.path.splitext(p)] (posixpath: [sep = '/'], no [altsep],
    [extsep = '.']). *)
Definition splitext (p : string) : string * string :=
  let sepIndex := rfind p "/"%char in
  let dotIndex := rfind p "."%char in
  if (sepIndex <? dotIndex)%Z then
    let filenameIndex := (sepIndex + 1)%Z in
    splitext_loop (Z.to_nat (dotIndex - filenameIndex)) p
                  (Z.to_nat filenameIndex) (Z.to_nat dotIndex)
  else (p, EmptyString).

(** [s.startswith(pre)] *)
Fixpoint startswith (s pre : string) : bool :=
  match pre, s with
  | EmptyString, _ => true
  | String a pre', String b s' => Ascii.eqb a b && startswith s' pre'
  | String _ _, EmptyString => false
  end.

(** The scan of [s.replace(old, new)] for a non-empty [old]: occurrences
    are found left to right and do not overlap; [skip] is the number of
    characters of the occurrence just replaced that are still to be
    passed over. *)
Fixpoint replace_scan (old new : string) (skip : nat) (s : string) : string :=
  match s with
  | EmptyString => EmptyString
  | String c s' =>
      match skip with
      | S k => replace_scan old new k s'
      | O =>
          if startswith s old
          then new +:+ replace_scan old new (String.length old - 1) s'
          else String c (replace_scan old new 0 s')
      end
  end.

(** With an empty [old], Python puts [new] before every character and at
    the end. *)
Fixpoint intersperse (new s : string) : string :=
  match s with
  | EmptyString => new
  | String c s' => new +:+ String c (intersperse new s')
  end.

(** [s.replace(old, new)]: every occurrence is replaced. *)
Definition replace (s old new : string) : string :=
  match old with
  | EmptyString => intersperse new s
  | String _ _ => replace_scan old new 0 s
  end.

End PyStr.

(** ** The pandas DataFrame: the Table of the specification *)

Module Pandas.
Section Frame.

(** The non-null numeric values (int64 or float64); the script never
    computes with them, it only compares them (in [duplicated]) and has
    pandas print them. *)
Context {number : Type} `{EqDecision number}.

(** One cell.  [NaN] (a float NaN, also NaT) and [PyNone] (Python's None
    in an object column) are the values [isnull] answers True for;
    [Nested] is a list or dict value, as [read_json] produces for nested
    documents, carried as the text the JSON writer prints for it. *)
Inductive Cell : Type :=
| NaN
| PyNone
| Number (x : number)
| Text (s : string)
| Boolean (b : bool)
| Nested (json : string).

#[global] Instance Cell_eq_dec : EqDecision Cell.
Proof using EqDecision0. solve_decision. Defined.

(** Column labels and the rows in index order; in a DataFrame every row
    has one cell per column ([rectangular]). *)
Record DataFrame : Type := mkDataFrame {
  columns : list string;
  values : list (list Cell)
}.

Definition rectangular (df : DataFrame) : Prop :=
  Forall (fun r : list Cell => length r = length (columns df)) (values df).

(** [df.empty]: True when any axis has length 0. *)
Definition empty (df : DataFrame) : bool :=
  (length (columns df) =? 0)%nat || (length (values df) =? 0)%nat.

(** [df.head()]: the first five rows. *)
Definition head (df : DataFrame) : DataFrame :=
  mkDataFrame (columns df) (take 5 (values df)).

(** [Series.sum()] of a boolean Series: the number of True entries. *)
Fixpoint sum (mask : list bool) : nat :=
  match mask with
  | [] => 0
  | b :: mask' => (if b then 1 else 0) + sum mask'
  end.

(** [Series.sum()] of a Series of counts. *)
Fixpoint sum_counts (l : list nat) : nat :=
  match l with
  | [] => 0
  | n :: l' => n + sum_counts l'
  end.

(** [hash(value)] exists: lists and dicts are unhashable. *)
Definition hashable (c : Cell) : bool :=
  match c with Nested _ => false | _ => true end.

(** [key] is the value a cell is hashed and compared as when pandas looks
    for duplicates: two cells are the same for [duplicated] when their keys
    are equal (in an object column [True] and [1] have one key; whether
    [None] and [NaN] do depends on the pandas at hand). *)
Variable key : Cell -> Cell.

(** [df.duplicated()] with the default [keep='first']: the rows are visited
    in order against the set of rows seen so far; a row already seen is
    marked True.  [duplicated_scan] works on the rows of keys. *)
Fixpoint duplicated_scan (seen rows : list (list Cell)) : list bool :=
  match rows with
  | [] => []
  | r :: rows' =>
      if decide (r ∈ seen)
      then true :: duplicated_scan seen rows'
      else false :: duplicated_scan (r :: seen) rows'
  end.

Definition duplicated (df : DataFrame) : list bool :=
  duplicated_scan [] (map (map key) (values df)).

(** [duplicated] raises [TypeError] on a frame with an unhashable cell. *)
Definition all_hashable (df : DataFrame) : bool :=
  forallb (forallb hashable) (values df).

(** Boolean indexing [rows[mask]]. *)
Fixpoint boolean_index {A : Type} (mask : list bool) (rows : list A) : list A :=
  match mask, rows with
  | b :: mask', r :: rows' =>
      if b then r :: boolean_index mask' rows' else boolean_index mask' rows'
  | _, _ => []
  end.

(** [df.drop_duplicates(inplace=True)]: the frame becomes
    [df[~df.duplicated()]]. *)
Definition drop_duplicates (df : DataFrame) : DataFrame :=
  mkDataFrame (columns df)
              (boolean_index (map negb (duplicated df)) (values df)).

Definition is_null (c : Cell) : bool :=
  match c with NaN | PyNone => true | _ => false end.

(** [df.isnull()]: the boolean frame of the same shape. *)
Definition isnull (df : DataFrame) : list (list bool) :=
  map (map is_null) (values df).

(** [DataFrame.sum()] of a boolean frame (axis 0): one count per column. *)
Definition sum_axis0 (ncols : nat) (mask : list (list bool)) : list nat :=
  map (fun j => sum (map (fun r => nth j r false) mask)) (seq 0 ncols).

(** [df.isnull().sum().sum()] *)
Definition isnull_sum_sum (df : DataFrame) : nat :=
  sum_counts (sum_axis0 (length (columns df)) (isnull df)).

(** [df.fillna(value, inplace=True)] with a string [value]. *)
Definition fillna_cell (value : string) (c : Cell) : Cell :=
  if is_null c then Text value else c.

Definition fillna (value : string) (df : DataFrame) : DataFrame :=
  mkDataFrame (columns df) (map (map (fillna_cell value)) (values df)).

(** *** [df.to_json(orient="records", indent=4)]

    The writer turns the frame into one record per row, each pairing the
    column labels with the cells of the row, and prints the array of
    records with pandas' JSON encoder: a new line after every opening
    bracket and after every comma, four spaces per nesting level, and
    nothing after a colon. *)

Definition to_records (df : DataFrame) : list (list (string * Cell)) :=
  map (fun r : list Cell => zip (columns df) r) (values df).

Local Open Scope N_scope.

Definition hex_digit (n : N) : ascii :=
  nth (N.to_nat n) (list_ascii_of_string "0123456789abcdef") "0"%char.

Definition backslash : ascii := ascii_of_nat 92.
Definition quote : string := String (ascii_of_nat 34) EmptyString.
Definition newline : string := String (ascii_of_nat 10) EmptyString.

(** A backslash followed by [c]. *)
Definition escaped (c : ascii) : string :=
  String backslash (String c EmptyString).

(** The escape with four hexadecimal digits of a code unit below 65536. *)
Definition u_escape (cp : N) : string :=
  escaped "u"%char
    +:+ String (hex_digit (cp / 4096 mod 16)) (String (hex_digit (cp / 256 mod 16))
          (String (hex_digit (cp / 16 mod 16)) (String (hex_digit (cp mod 16))
            EmptyString))).

(** Code points from 65536 on are written as a surrogate pair. *)
Definition u_escape_point (cp : N) : string :=
  if (cp <? 65536)%N then u_escape cp
  else u_escape (55296 + (cp - 65536) / 1024)
         +:+ u_escape (56320 + (cp - 65536) mod 1024).

(** One ASCII character inside a string literal. *)
Definition escape_ascii (c : ascii) : string :=
  let n := N_of_ascii c in
  if (n =? 34)%N then escaped c
  else if (n =? 92)%N then escaped c
  else if (n =? 47)%N then escaped c
  else if (n =? 8)%N then escaped "b"%char
  else if (n =? 12)%N then escaped "f"%char
  else if (n =? 10)%N then escaped "n"%char
  else if (n =? 13)%N then escaped "r"%char
  else if (n =? 9)%N then escaped "t"%char
  else if (n <? 32)%N then u_escape n
  else String c EmptyString.

Definition continuation (c : ascii) : N := N_of_ascii c - 128.

(** The body of a string literal ([force_ascii=True]): ASCII characters
    are escaped one by one, a multi-byte UTF-8 sequence becomes the escape
    of its code point.  (A Python [str] is always well-formed; on a
    truncated sequence the scan simply ends.) *)
Fixpoint json_escape (s : string) : string :=
  match s with
  | EmptyString => EmptyString
  | String c1 s1 =>
      let n1 := N_of_ascii c1 in
      if (n1 <? 128)%N then escape_ascii c1 +:+ json_escape s1
      else
        match s1 with
        | EmptyString => EmptyString
        | String c2 s2 =>
            if (n1 <? 224)%N then
              u_escape_point ((n1 - 192) * 64 + continuation c2)
                +:+ json_escape s2
            else
              match s2 with
              | EmptyString => EmptyString
              | String c3 s3 =>
                  if (n1 <? 240)%N then
                    u_escape_point
                      ((n1 - 224) * 4096 + continuation c2 * 64 + continuation c3)
                      +:+ json_escape s3
                  else
                    match s3 with
                    | EmptyString => EmptyString
                    | String c4 s4 =>
                        u_escape_point
                          ((n1 - 240) * 262144 + continuation c2 * 4096
                           + continuation c3 * 64 + continuation c4)
                          +:+ json_escape s4
                    end
              end
        end
  end.

Local Close Scope N_scope.

Definition json_string (s : string) : string :=
  quote +:+ json_escape s +:+ quote.

(** [json_number] prints a non-null number (pandas' float formatting). *)
Variable json_number : number -> string.

Definition json_scalar (c : Cell) : string :=
  match c with
  | NaN | PyNone => "null"
  | Nested json => json
  | Number x => json_number x
  | Text s => json_string s
  | Boolean true => "true"
  | Boolean false => "false"
  end.

(** [n] spaces. *)
Fixpoint spaces (n : nat) : string :=
  match n with
  | O => EmptyString
  | S n' => String " "%char (spaces n')
  end.

Definition indentation (indent level : nat) : string := spaces (indent * level).

(** Items separated by a comma and a new line. *)
Fixpoint json_items (items : list string) : string :=
  match items with
  | [] => EmptyString
  | x :: items' =>
      match items' with
      | [] => x
      | _ :: _ => x +:+ "," +:+ newline +:+ json_items items'
      end
  end.

Definition json_member (indent level : nat) (m : string * Cell) : string :=
  indentation indent level +:+ json_string (fst m) +:+ ":" +:+ json_scalar (snd m).

Definition json_object (indent level : nat) (members : list (string * Cell)) : string :=
  "{" +:+ newline
    +:+ json_items (map (json_member indent (S level)) members)
    +:+ newline +:+ indentation indent level +:+ "}".

Definition json_array (indent : nat) (records : list (list (string * Cell))) : string :=
  "[" +:+ newline
    +:+ json_items
          (map (fun r => indentation indent 1 +:+ json_object indent 1 r) records)
    +:+ newline +:+ "]".

(** The writer refuses a frame whose column labels are not unique. *)
Definition to_json_records (indent : nat) (df : DataFrame) : string + string :=
  if decide (NoDup (columns df))
  then inr (json_array indent (to_records df))
  else inl "DataFrame columns must be unique for orient='records'.".

End Frame.

Arguments Cell : clear implicits.
Arguments DataFrame : clear implicits.

(** One row of a frame. *)
Abbreviation Row number := (list (Cell number)).

End Pandas.

(** ** The script *)

Module App.
Import PyStr Pandas.

(** [str(e)] of a caught exception, and the content of a byte buffer. *)
Definition Exception : Type := string.
Definition bytes : Type := string.

(** What [st.file_uploader] hands over for one file. *)
Record UploadedFile : Type := mkUploadedFile {
name : string;
size : nat;
content : bytes
}.

(** The options of the [st.radio] of line 105, in order. *)
Inductive ConversionType : Type := CSV | Excel | JSON | TXT.

Definition option_text (c : ConversionType) : string :=
match c with
| CSV => "CSV"
| Excel => "Excel"
| JSON => "JSON"
| TXT => "TXT"
end.

(** The part of pandas the script calls and this development does not
  write out: the readers (file and delimiter), the dtype selection of the
  chart, the CSV and Excel writers (frame and separator), the printing
  of numbers in JSON, the key under which [duplicated] files a cell of a
  frame with so many columns (two cells are the same value for it when
  their keys are equal: [True] and [1] share a key, and whether [None] and
  [NaN] do depends on the number of columns), and the exception, if any,
  with which [fillna] refuses a value for a frame. *)
Record PandasAPI (number : Type) : Type := mkPandasAPI {
read_csv : UploadedFile -> string -> Exception + DataFrame number;
read_excel : UploadedFile -> Exception + DataFrame number;
read_json : UploadedFile -> Exception + DataFrame number;
select_dtypes_number : DataFrame number -> DataFrame number;
to_csv : DataFrame number -> string -> Exception + bytes;
to_excel : DataFrame number -> Exception + bytes;
json_number : number -> string;
hash_key : nat -> Cell number -> Cell number;
fillna_error : DataFrame number -> string -> option Exception
}.

Arguments read_csv {number}.
Arguments read_excel {number}.
Arguments read_json {number}.
Arguments select_dtypes_number {number}.
Arguments to_csv {number}.
Arguments to_excel {number}.
Arguments json_number {number}.
Arguments hash_key {number}.
Arguments fillna_error {number}.

(** Python's own [str.lower], which knows all of Unicode; [PyStr.lower] is
    what it does to ASCII letters. *)
Record PythonAPI : Type := mkPythonAPI {
str_lower : string -> string
}.

(** The state of the widgets in one run of the script: a checkbox and a
  button are identified by their label, the radio by its key. *)
Record StreamlitAPI : Type := mkStreamlitAPI {
checkbox : string -> bool;
radio : string -> ConversionType;
button : string -> bool
}.

Section Script.

Context {number : Type} `{EqDecision number}.
Variable pd : PandasAPI number.
Variable st : StreamlitAPI.

(** The texts the script shows, one constructor per format string (the
    emoji in front of a text is left out). *)
Inductive Message : Type :=
| UnsupportedFileType (file_extension : string)            (* line 48 *)
| ErrorReading (file_name : string) (e : Exception)        (* line 62 *)
| IsEmpty (file_name : string)                             (* line 67 *)
| FileName (file_name : string)                            (* line 71 *)
| FileSize (file_size : nat)                               (* line 72 *)
| Preview                                                  (* line 73 *)
| DuplicatesRemoved (duplicate_count : nat)                (* line 82 *)
| NoDuplicateValuesFound                                   (* line 84 *)
| MissingValuesFilled (missing_count : nat)                (* line 90 *)
| NoMissingValuesFound                                     (* line 92 *)
| NoNumericData (file_name : string)                       (* line 101 *)
| SuccessfullyConverted (file_name conversion_type : string) (* line 139 *)
| ErrorConverting (file_name : string) (e : Exception)     (* line 142 *)
| FileProcessingComplete                                   (* line 146 *)
| NoFilesWereConverted.                                    (* line 148 *)

(** What one run does, in order: the calls of a pandas reader and the
    Streamlit elements put on the page. *)
Inductive Event : Type :=
| Read (file_name : string)
| Error (m : Message)
| Warning (m : Message)
| Write (m : Message)
| Success (m : Message)
| Info (m : Message)
| Subheader (title : string)
| Dataframe (data : DataFrame number)
| BarChart (data : DataFrame number)
| Checkbox (label : string)
| Radio (label : string)
| Button (label : string)
| DownloadButton (data : bytes) (file_name mime : string).

(** The variables of the script that live across iterations of the loop:
    [df] is unbound until the first successful read. *)
Record Vars : Type := mkVars {
  df : option (DataFrame number);
  file_processed : bool
}.

(** An iteration ends normally (also through [continue]) or with an
    exception nothing catches. *)
Inductive Outcome : Type :=
| Next (v : Vars) (log : list Event)
| Uncaught (log : list Event).

(** Line 30. *)
Definition SUPPORTED_TYPES : gset string :=
  {[ ".csv"; ".xlsx"; ".json"; ".txt" ]}.

Definition tab : string := String (ascii_of_nat 9) EmptyString.

(** Lines 53-60: the body of the [try].  [None] is the chain falling
    through without a call (no [else] branch), which leaves [df] as it
    was. *)
Definition read_block (file : UploadedFile) (file_extension : string)
  : option (Exception + DataFrame number) :=
  if String.eqb file_extension ".csv" then Some (read_csv pd file ",")
  else if String.eqb file_extension ".xlsx" then Some (read_excel pd file)
  else if String.eqb file_extension ".json" then Some (read_json pd file)
  else if String.eqb file_extension ".txt" then Some (read_csv pd file tab)
  else None.

(** Lines 78-84, the body of the checkbox, where [duplicated] returns
    (with its [TypeError]: [remove_duplicates_block]). *)
Definition remove_duplicates (d : DataFrame number)
  : DataFrame number * list Event :=
  let duplicate_count := sum (duplicated (hash_key pd (length (columns d))) d) in
  if (0 <? duplicate_count)%nat
  then (drop_duplicates (hash_key pd (length (columns d))) d,
        [Write (DuplicatesRemoved duplicate_count)])
  else (d, [Write NoDuplicateValuesFound]).

(** Lines 86-92, the body of the checkbox, where [fillna] returns (with
    its [TypeError]: [fill_missing_values_block]). *)
Definition fill_missing_values (d : DataFrame number)
  : DataFrame number * list Event :=
  let missing_count := isnull_sum_sum d in
  if (0 <? missing_count)%nat
  then (fillna "Missing" d, [Write (MissingValuesFilled missing_count)])
  else (d, [Write NoMissingValuesFound]).

(** Lines 77-92, where both bodies return (with their exceptions:
    [data_cleaning_block]). *)
Definition data_cleaning (file : UploadedFile) (d : DataFrame number)
  : DataFrame number * list Event :=
  let remove_label := "Remove Duplicates from " +:+ name file in
  let fill_label := "Fill Missing Values for " +:+ name file in
  let '(d1, log1) :=
    if checkbox st remove_label then remove_duplicates d else (d, []) in
  let '(d2, log2) :=
    if checkbox st fill_label then fill_missing_values d1 else (d1, []) in
  (d2, [Subheader "Data Cleaning"; Checkbox remove_label] ++ log1
         ++ [Checkbox fill_label] ++ log2).

(** Lines 95-101. *)
Definition data_visualization (file : UploadedFile) (d : DataFrame number)
  : list Event :=
  let chart_label := "Show Chart for " +:+ name file in
  [Subheader "Data Visualization"; Checkbox chart_label]
    ++ (if checkbox st chart_label then
          let numeric_df := select_dtypes_number pd d in
          if negb (empty numeric_df) then [BarChart numeric_df]
          else [Warning (NoNumericData (name file))]
        else []).

(** Lines 113-116. *)
Definition export_file_name (file_name file_extension conversion_type : string)
  : string :=
  if String.eqb conversion_type "Excel"
  then replace file_name file_extension ".xlsx"
  else replace file_name file_extension ("." +:+ lower conversion_type).

(** [text.encode("utf-8")]: a [str] is held as its UTF-8 code units. *)
Definition encode_utf8 (text : string) : bytes := text.

(** Lines 119-131: what ends up in [buffer], and [mime]. *)
Definition serialize (conversion_type : ConversionType) (d : DataFrame number)
  : Exception + bytes * string :=
  match conversion_type with
  | CSV =>
      match to_csv pd d "," with
      | inr data => inr (data, "text/csv")
      | inl e => inl e
      end
  | Excel =>
      match to_excel pd d with
      | inr data =>
          inr (data,
               "application/vnd.openxmlformats-officedocument.spreadsheetml.sheet")
      | inl e => inl e
      end
  | JSON =>
      match to_json_records (json_number pd) 4 d with
      | inr text => inr (encode_utf8 text, "application/json")
      | inl e => inl e
      end
  | TXT =>
      match to_csv pd d tab with
      | inr data => inr (data, "text/plain")
      | inl e => inl e
      end
  end.

(** Lines 109-142, the body of the button; [d] is the frame [df] is bound
    to. *)
Definition convert (file : UploadedFile) (file_extension : string)
    (conversion_type : ConversionType) (d : DataFrame number) (v : Vars)
  : Vars * list Event :=
  let file_name :=
    export_file_name (name file) file_extension (option_text conversion_type) in
  match serialize conversion_type d with
  | inr (data, mime) =>
      (mkVars (df v) true,
       [DownloadButton data file_name mime;
        Success (SuccessfullyConverted (name file) (option_text conversion_type))])
  | inl e => (v, [Error (ErrorConverting (name file) e)])
  end.

(** Lines 104-142. *)
Definition convert_and_download (file : UploadedFile) (file_extension : string)
    (d : DataFrame number) (v : Vars) : Vars * list Event :=
  let conversion_type := radio st (name file) in
  let convert_label := "Convert " +:+ name file in
  let '(v', log) :=
    if button st convert_label
    then convert file file_extension conversion_type d v
    else (v, []) in
  (v', [Subheader "Convert & Download";
        Radio ("Convert " +:+ name file +:+ " to:");
        Button convert_label] ++ log).

(** Lines 71-142: a file that was read and is not empty, where the
    cleaning returns and the widgets are accepted. *)
Definition process (file : UploadedFile) (file_extension : string)
    (d : DataFrame number) (v : Vars) : Vars * list Event :=
  let details :=
    [Write (FileName (name file)); Write (FileSize (size file));
     Write Preview; Dataframe (head d)] in
  let '(d', cleaning_log) := data_cleaning file d in
  let chart_log := data_visualization file d' in
  let '(v', convert_log) :=
    convert_and_download file file_extension d' (mkVars (Some d') (file_processed v)) in
  (v', details ++ cleaning_log ++ chart_log ++ convert_log).

(** Lines 44-142: one iteration of the loop, where no call outside the
    two [try] blocks raises and the extension is in ASCII (with the three
    calls that raise and [str.lower] itself: [iteration]). *)
Definition loop_body (file : UploadedFile) (v : Vars) : Outcome :=
  let file_extension := lower (snd (splitext (name file))) in
  if negb (bool_decide (file_extension ∈ SUPPORTED_TYPES)) then
    Next v [Error (UnsupportedFileType file_extension)]
  else
    match read_block file file_extension with
    | Some (inl e) =>
        Next v [Read (name file); Error (ErrorReading (name file) e)]
    | read =>
        let v1 :=
          match read with
          | Some (inr d) => mkVars (Some d) (file_processed v)
          | _ => v
          end in
        let read_log :=
          match read with Some _ => [Read (name file)] | None => [] end in
        match df v1 with
        | None => Uncaught read_log
        | Some d =>
            if empty d then
              Next v1 (read_log ++ [Warning (IsEmpty (name file))])
            else
              let '(v2, log) := process file file_extension d v1 in
              Next v2 (read_log ++ log)
        end
    end.

(** What was shown before stays on the page. *)
Definition after (log : list Event) (o : Outcome) : Outcome :=
  match o with
  | Next v log' => Next v (log ++ log')
  | Uncaught log' => Uncaught (log ++ log')
  end.

(** Everything shown, however the run ended. *)
Definition shown (o : Outcome) : list Event :=
  match o with
  | Next _ log => log
  | Uncaught log => log
  end.

(** Lines 43-142: the loop over the uploaded files, of such iterations
    (in full: [script_loop]). *)
Fixpoint for_loop (uploaded_files : list UploadedFile) (v : Vars) : Outcome :=
  match uploaded_files with
  | [] => Next v []
  | file :: rest =>
      match loop_body file v with
      | Next v' log => after log (for_loop rest v')
      | Uncaught log => Uncaught log
      end
  end.

(** *** The calls outside a [try]

    [loop_body] and [for_loop] above are the iteration and the loop as long
    as no call outside the two [try] blocks raises.  Three calls can: the
    first checkbox of a file whose name already reached its widgets in this
    run (Streamlit identifies a widget by its label and refuses a second
    one), [df.duplicated()] on a frame with an unhashable cell, and
    [df.fillna] when pandas finds the text incompatible with the dtype of a
    column ([fillna_error]; pandas 3 does for a numeric column, pandas 2
    never does).  What follows is the script with these. *)

Variable py : PythonAPI.

(** Lines 78-84 with line 79 raising. *)
Definition remove_duplicates_block (d : DataFrame number)
  : Exception + DataFrame number * list Event :=
  if all_hashable d then inr (remove_duplicates d)
  else inl "unhashable type".

(** Lines 86-92 with line 89 raising. *)
Definition fill_missing_values_block (d : DataFrame number)
  : Exception + DataFrame number * list Event :=
  match (if (0 <? isnull_sum_sum d)%nat then fillna_error pd d "Missing"
         else None) with
  | Some e => inl e
  | None => inr (fill_missing_values d)
  end.

(** Lines 77-92: the cleaned frame and what was shown, or what was shown
    before the exception and the exception. *)
Definition data_cleaning_block (file : UploadedFile) (d : DataFrame number)
  : list Event * Exception + DataFrame number * list Event :=
  let remove_label := "Remove Duplicates from " +:+ name file in
  let fill_label := "Fill Missing Values for " +:+ name file in
  match (if checkbox st remove_label then remove_duplicates_block d
         else inr (d, [])) with
  | inl e => inl ([Subheader "Data Cleaning"; Checkbox remove_label], e)
  | inr (d1, log1) =>
      match (if checkbox st fill_label then fill_missing_values_block d1
             else inr (d1, [])) with
      | inl e =>
          inl ([Subheader "Data Cleaning"; Checkbox remove_label] ++ log1
                 ++ [Checkbox fill_label], e)
      | inr (d2, log2) =>
          inr (d2, [Subheader "Data Cleaning"; Checkbox remove_label] ++ log1
                     ++ [Checkbox fill_label] ++ log2)
      end
  end.

(** An iteration goes on to the next file, with the names whose widgets
    are on the page, or ends the run with an exception. *)
Inductive Step : Type :=
| Continue (widgets : list string) (v : Vars) (log : list Event)
| Raise (log : list Event) (e : Exception).

(** Lines 44-142.  [widgets] holds the names of the files that reached
    line 78 earlier in the run: the labels of the checkboxes and of the
    button and the key of the radio are made of the name alone, so the
    first checkbox is where a repeated name is refused. *)
Definition iteration (widgets : list string) (file : UploadedFile) (v : Vars)
  : Step :=
  let file_extension := str_lower py (snd (splitext (name file))) in
  if negb (bool_decide (file_extension ∈ SUPPORTED_TYPES)) then
    Continue widgets v [Error (UnsupportedFileType file_extension)]
  else
    match read_block file file_extension with
    | Some (inl e) =>
        Continue widgets v
                 [Read (name file); Error (ErrorReading (name file) e)]
    | read =>
        let v1 :=
          match read with
          | Some (inr d) => mkVars (Some d) (file_processed v)
          | _ => v
          end in
        let read_log :=
          match read with Some _ => [Read (name file)] | None => [] end in
        match df v1 with
        | None => Raise read_log "name 'df' is not defined"
        | Some d =>
            if empty d then
              Continue widgets v1
                       (read_log ++ [Warning (IsEmpty (name file))])
            else
              let details :=
                [Write (FileName (name file)); Write (FileSize (size file));
                 Write Preview; Dataframe (head d)] in
              if bool_decide (name file ∈ widgets) then
                Raise (read_log ++ details ++ [Subheader "Data Cleaning"])
                      "StreamlitDuplicateElementId"
              else
                match data_cleaning_block file d with
                | inl (cleaning_log, e) =>
                    Raise (read_log ++ details ++ cleaning_log) e
                | inr (d', cleaning_log) =>
                    let chart_log := data_visualization file d' in
                    let '(v', convert_log) :=
                      convert_and_download
                        file file_extension d'
                        (mkVars (Some d') (file_processed v1)) in
                    Continue (name file :: widgets) v'
                             (read_log ++ details ++ cleaning_log
                                ++ chart_log ++ convert_log)
                end
        end
    end.

(** What was shown before stays on the page. *)
Definition following (log : list Event) (s : Step) : Step :=
  match s with
  | Continue widgets v log' => Continue widgets v (log ++ log')
  | Raise log' e => Raise (log ++ log') e
  end.

(** Lines 43-142 *)
Fixpoint script_loop (widgets : list string)
    (uploaded_files : list UploadedFile) (v : Vars) : Step :=
  match uploaded_files with
  | [] => Continue widgets v []
  | file :: rest =>
      match iteration widgets file v with
      | Continue widgets' v' log => following log (script_loop widgets' rest v')
      | Raise log e => Raise log e
      end
  end.

(** How a run ends: at the end of the script, or where an exception
    nothing catches stopped it; either way with what was shown. *)
Inductive Run : Type :=
| Completed (log : list Event)
| Raised (log : list Event) (e : Exception).

(** Everything a run showed. *)
Definition page (r : Run) : list Event :=
  match r with
  | Completed log => log
  | Raised log _ => log
  end.

(** Lines 40-148: everything below the uploader. *)
Definition main (uploaded_files : list UploadedFile) : Run :=
  match uploaded_files with
  | [] => Completed []
  | _ :: _ =>
      match script_loop [] uploaded_files (mkVars None false) with
      | Continue _ v log =>
          Completed (log ++ [if file_processed v
                             then Success FileProcessingComplete
                             else Info NoFilesWereConverted])
      | Raise log e => Raised log e
      end
  end.

End Script.
End App.

(** ** The notions the specification speaks in *)

Module Spec.
Import PyStr Pandas App.
Section Notions.

Context {number : Type} `{EqDecision number}.

(** The cell in row [i] and column [j] of a frame. *)
Definition iat (d : DataFrame number) (i j : nat) : option (Cell number) :=
  values d !! i ≫= fun r : Row number => r !! j.




(** The number of cells, across all rows and columns, that are null. *)
Definition null_cells (d : DataFrame number) : nat :=
  length (filter (fun c => is_null c = true) (concat (values d))).

(** The text [x] occurs in the text [s]. *)
Definition occurs_in (x s : string) : Prop :=
  ∃ before after, s = before +:+ x +:+ after.

(** The upper-case form of a lower-case ASCII letter. *)
Definition upper_char (c : ascii) : ascii :=
  let n := nat_of_ascii c in
  if (97 <=? n)%nat && (n <=? 122)%nat then ascii_of_nat (n - 32) else c.

(** [s] spells the lower-case text [x], each letter in either case. *)
Fixpoint spells (s x : string) : bool :=
  match s, x with
  | EmptyString, EmptyString => true
  | String a s', String b x' =>
      (Ascii.eqb a b || Ascii.eqb a (upper_char b)) && spells s' x'
  | _, _ => false
  end.

(** What is used of [str.lower]: it gives one of the four supported
    extensions exactly when lower-casing the ASCII letters does (no other
    character lower-cases to a letter of these extensions). *)
Definition lowers_extensions (py : PythonAPI) : Prop :=
  ∀ s x, x ∈ SUPPORTED_TYPES → str_lower py s = x ↔ lower s = x.

(** The canonical extension of a target format. *)
Definition canonical_extension (c : ConversionType) : string :=
  match c with
  | CSV => ".csv"
  | Excel => ".xlsx"
  | JSON => ".json"
  | TXT => ".txt"
  end.

(** The name the specification gives the export: the original name with
    its trailing extension replaced by the canonical one. *)
Definition replaced_extension (file_name : string) (c : ConversionType) : string :=
  fst (splitext file_name) +:+ canonical_extension c.

(** The two aggregate messages, the download offer and the per-file
    confirmation among the events. *)
Definition is_aggregate (e : @Event number) : bool :=
  match e with
  | Success FileProcessingComplete | Info NoFilesWereConverted => true
  | _ => false
  end.

Definition is_download (e : @Event number) : bool :=
  match e with
  | DownloadButton _ _ _ => true
  | _ => false
  end.

Definition is_confirmation (e : @Event number) : bool :=
  match e with
  | Success (SuccessfullyConverted _ _) => true
  | _ => false
  end.

(** An event that is neither an aggregate message, nor a download offer,
    nor a confirmation. *)
Definition is_quiet (e : @Event number) : bool :=
  negb (is_aggregate e || is_download e || is_confirmation e).

(** A log in which every download offer is at once followed by the
    confirmation for one of [files] with the format chosen for it, every
    confirmation follows a download offer, and no aggregate message
    occurs. *)
Inductive well_reported (st : StreamlitAPI) (files : list UploadedFile)
  : list (@Event number) → Prop :=
| reported_nil : well_reported st files []
| reported_quiet e log :
    is_quiet e = true → well_reported st files log →
    well_reported st files (e :: log)
| reported_download data file_name mime file log :
    file ∈ files → well_reported st files log →
    well_reported st files
      (DownloadButton data file_name mime
       :: Success (SuccessfullyConverted (name file)
                     (option_text (radio st (name file))))
       :: log).

(** The file passes the extension test and is read into the table [d],
    which has rows and columns. *)
Definition read_with_rows (pd : PandasAPI number) (py : PythonAPI)
    (file : UploadedFile) (d : DataFrame number) : Prop :=
  let file_extension := str_lower py (snd (splitext (name file))) in
  file_extension ∈ SUPPORTED_TYPES
  ∧ read_block pd file file_extension = Some (inr d)
  ∧ empty d = false.

(** Whenever the file is read and its duplicates box is ticked, the table
    holds cells [duplicated] accepts. *)
Definition hashable_when_read (pd : PandasAPI number) (st : StreamlitAPI)
    (file : UploadedFile) : Prop :=
  ∀ x d, read_block pd file x = Some (inr d) →
         checkbox st ("Remove Duplicates from " +:+ name file) = true →
         all_hashable d = true.

(** What the iteration of a file that was read and is not empty shows
    before the outcome of the conversion: lines 52-107 and the button. *)
Definition before_conversion (pd : PandasAPI number) (st : StreamlitAPI)
    (file : UploadedFile) (d : DataFrame number) : list (@Event number) :=
  Read (name file)
  :: [Write (FileName (name file)); Write (FileSize (size file));
      Write Preview; Dataframe (head d)]
  ++ snd (data_cleaning pd st file d)
  ++ data_visualization pd st file (fst (data_cleaning pd st file d))
  ++ [Subheader "Convert & Download";
      Radio ("Convert " +:+ name file +:+ " to:");
      Button ("Convert " +:+ name file)].

End Notions.
End Spec.

(** ** Sample inputs *)

Module Sample.
Import PyStr Pandas App.

(** Three rows, the second repeating the first, with one null in the
    numeric column [score]. *)
Definition scores : DataFrame Z :=
  mkDataFrame ["id"; "score"]
    [[Text "a"; Number 7%Z]; [Text "a"; Number 7%Z]; [Text "b"; NaN]].

Definition no_rows : DataFrame Z := mkDataFrame ["id"; "score"] [].

(** A pandas whose readers fail on the content [oops], give [no_rows] for
    an empty content and [scores] otherwise, and whose CSV and Excel
    writers always succeed. *)
Definition reader (file : UploadedFile) : Exception + DataFrame Z :=
  if String.eqb (content file) "oops" then inl "Expecting value"
  else if String.eqb (content file) "" then inr no_rows
  else inr scores.

(** The key of a cell: [True] is [1], [False] is [0], and [None] is [NaN]
    unless the frame has one column only. *)
Definition python_key (ncols : nat) (c : Cell Z) : Cell Z :=
  match c with
  | Boolean true => Number 1%Z
  | Boolean false => Number 0%Z
  | PyNone => if (ncols =? 1)%nat then PyNone else NaN
  | _ => c
  end.

(** A pandas 2: [fillna] takes the text in every column. *)
Definition pandas : PandasAPI Z :=
  mkPandasAPI Z (fun file _ => reader file) reader reader
    (fun d => d) (fun _ _ => inr "text") (fun _ => inr "sheet")
    (fun _ => "7.0") python_key (fun _ _ => None).

(** Column [j] holds a null and, apart from nulls, numbers only. *)
Definition numeric_with_null (d : DataFrame Z) (j : nat) : bool :=
  existsb (fun r => match r !! j with Some c => is_null c | None => false end)
          (values d)
  && forallb (fun r => match r !! j with
                       | Some (Number _) | Some NaN | Some PyNone | None => true
                       | _ => false
                       end)
             (values d).

(** The [TypeError] of [fillna]. *)
Definition refused : Exception := "Invalid value 'Missing' for dtype 'float64'".

(** A pandas 3: [fillna] with a text raises on a numeric column that holds
    a null. *)
Definition pandas3 : PandasAPI Z :=
  mkPandasAPI Z (fun file _ => reader file) reader reader
    (fun d => d) (fun _ _ => inr "text") (fun _ => inr "sheet")
    (fun _ => "7.0") python_key
    (fun d _ => if existsb (numeric_with_null d) (seq 0 (length (columns d)))
                then Some refused
                else None).

(** [str.lower] on the ASCII names of the samples. *)
Definition python : PythonAPI := mkPythonAPI lower.

(** Every checkbox ticked, JSON chosen, every button pressed. *)
Definition all_on : StreamlitAPI :=
  mkStreamlitAPI (fun _ => true) (fun _ => JSON) (fun _ => true).

Definition unsupported_file : UploadedFile := mkUploadedFile "notes.pdf" 10 "text".
Definition broken_file : UploadedFile := mkUploadedFile "broken.json" 4 "oops".
Definition empty_file : UploadedFile := mkUploadedFile "empty.csv" 0 "".
Definition good_file : UploadedFile := mkUploadedFile "scores.csv" 30 "rows".




Definition hidden_file : UploadedFile := mkUploadedFile ".csv" 12 "rows".

(** A file with its extension in capitals. *)
Definition capitals_file : UploadedFile := mkUploadedFile "DATA.CSV" 30 "rows".

(** A table read from a JSON document whose records hold a list, the
    pandas that reads it from every file, and such a file. *)
Definition orders : DataFrame Z :=
  mkDataFrame ["id"; "items"] [[Text "a"; Nested "[1, 2]"]].

Definition nested_pandas : PandasAPI Z :=
  mkPandasAPI Z (fun _ _ => inr orders) (fun _ => inr orders)
    (fun _ => inr orders) (fun d => d) (fun _ _ => inr "text")
    (fun _ => inr "sheet") (fun _ => "7.0") python_key (fun _ _ => None).

Definition orders_file : UploadedFile := mkUploadedFile "orders.json" 40 "rows".

(** [scores] without its repeated row, and that with its null filled. *)
Definition deduplicated : DataFrame Z :=
  mkDataFrame ["id"; "score"] [[Text "a"; Number 7%Z]; [Text "b"; NaN]].

Definition cleaned : DataFrame Z :=
  mkDataFrame ["id"; "score"]
    [[Text "a"; Number 7%Z]; [Text "b"; Text "Missing"]].

End Sample.

(** ** Properties *)

Import PyStr Pandas App Spec.

(** *** Extension of a file name *)

Lemma append_empty (s : string) : s +:+ EmptyString = s.
Proof. induction s as [|c s IH]; simpl; [reflexivity | now rewrite IH]. Qed.

Lemma slice_join (n : nat) (s : string) : slice_to n s +:+ slice_from n s = s.
Proof.
  revert s; induction n as [|n IH]; intros [|c s]; simpl; try reflexivity.
  now rewrite IH.
Qed.

Lemma splitext_loop_join (n : nat) (p : string) (i k : nat) :
  fst (splitext_loop n p i k) +:+ snd (splitext_loop n p i k) = p.
Proof.
  revert i; induction n as [|n IH]; intros i; simpl.
  - apply append_empty.
  - destruct (String.get i p) as [c|]; simpl; [|apply slice_join].
    destruct c as [[] [] [] [] [] [] [] []]; simpl; try apply slice_join.
    apply IH.
Qed.

(** The root and the extension are the two halves of the name. *)
Lemma splitext_join (p : string) :
  fst (splitext p) +:+ snd (splitext p) = p.
Proof.
  unfold splitext.
  destruct (rfind p "/" <? rfind p ".")%Z.
  - apply splitext_loop_join.
  - apply append_empty.
Qed.

Lemma rfind_range (s : string) (c : ascii) :
  (-1 <= rfind s c < Z.of_nat (String.length s))%Z.
Proof.
  induction s as [|a s IH]; simpl; [lia|].
  destruct (Z.leb_spec 0 (rfind s c)); [lia|].
  destruct (Ascii.eqb a c); lia.
Qed.

Lemma rfind_get (s : string) (c : ascii) :
  (0 <= rfind s c)%Z -> String.get (Z.to_nat (rfind s c)) s = Some c.
Proof.
  induction s as [|a s IH]; simpl; [lia|].
  destruct (Z.leb_spec 0 (rfind s c)) as [Hi|Hi].
  - intros _. replace (Z.to_nat (rfind s c + 1)) with (S (Z.to_nat (rfind s c))) by lia.
    simpl. auto.
  - destruct (Ascii.eqb_spec a c) as [->|]; [reflexivity | lia].
Qed.

Lemma slice_from_get (n : nat) (s : string) (c : ascii) :
  String.get n s = Some c -> ∃ rest, slice_from n s = String c rest.
Proof.
  revert s; induction n as [|n IH]; intros [|a s]; simpl; try discriminate.
  - intros [= ->]. eauto.
  - apply IH.
Qed.

(** An extension is empty or starts at a dot. *)
Lemma splitext_extension (p : string) :
  snd (splitext p) = EmptyString ∨ ∃ rest, snd (splitext p) = String "."%char rest.
Proof.
  unfold splitext.
  destruct (Z.ltb_spec (rfind p "/") (rfind p ".")) as [Hlt|]; [|now left].
  generalize (Z.to_nat (rfind p "/" + 1)).
  generalize (Z.to_nat (rfind p "." - (rfind p "/" + 1))).
  pose proof (rfind_range p "/"%char) as Hsep.
  assert (Hdot : String.get (Z.to_nat (rfind p ".")) p = Some "."%char)
    by (apply rfind_get; lia).
  apply slice_from_get in Hdot as [rest Hrest].
  assert (Hsplit : ∀ q, q = (slice_to (Z.to_nat (rfind p ".")) p,
                            slice_from (Z.to_nat (rfind p ".")) p)
                        → snd q = EmptyString ∨ ∃ r, snd q = String "."%char r)
    by (intros q ->; right; simpl; eauto).
  intros n; induction n as [|n IH]; intros i; simpl; [now left|].
  destruct (String.get i p) as [c|]; [|now apply Hsplit].
  destruct c as [[] [] [] [] [] [] [] []]; try (now apply Hsplit).
  apply IH.
Qed.

(** Membership in the set of line 30. *)
Lemma supported_types (x : string) :
  x ∈ SUPPORTED_TYPES ↔ x = ".csv" ∨ x = ".xlsx" ∨ x = ".json" ∨ x = ".txt".
Proof.
  unfold SUPPORTED_TYPES. rewrite !elem_of_union, !elem_of_singleton. tauto.
Qed.

Section Reading.

Context {number : Type} `{EqDecision number}.
Variable pd : PandasAPI number.
Variable st : StreamlitAPI.

(** A supported extension always selects one of the four readers. *)
Lemma read_block_supported (file : UploadedFile) (x : string) :
  x ∈ SUPPORTED_TYPES → is_Some (read_block pd file x).
Proof.
  rewrite supported_types. unfold read_block.
  intros [-> | [-> | [-> | ->]]]; simpl; eauto.
Qed.

Lemma read_block_unsupported (file : UploadedFile) (x : string) :
  x ∉ SUPPORTED_TYPES → read_block pd file x = None.
Proof.
  rewrite supported_types. unfold read_block. intros Hx.
  repeat match goal with
  | |- context [String.eqb x ?s] =>
      destruct (String.eqb_spec x s) as [->|_]; [exfalso; apply Hx; tauto|]
  end.
  reflexivity.
Qed.

End Reading.

(** *** Duplicate rows *)

Section Duplicates.

Context {number : Type} `{EqDecision number}.
Implicit Types (rows seen : list (Row number)) (mask : list bool).





Lemma duplicated_scan_length seen rows :
  length (duplicated_scan seen rows) = length rows.
Proof.
  revert seen; induction rows as [|r rows IH]; intros seen; simpl;
    [reflexivity|].
  destruct (decide (r ∈ seen)); simpl; now rewrite IH.
Qed.


Local Abbreviation kept seen rows :=
  (boolean_index (map negb (duplicated_scan seen rows)) rows).

Lemma kept_sublist seen rows : kept seen rows `sublist_of` rows.
Proof.
  revert seen; induction rows as [|r rows IH]; intros seen; simpl;
    [constructor|].
  destruct (decide (r ∈ seen)); simpl.
  - apply sublist_cons, IH.
  - apply sublist_skip, IH.
Qed.





Lemma boolean_index_none_marked {A : Type} mask (l : list A) :
  sum mask = 0 → length mask = length l →
  boolean_index (map negb mask) l = l.
Proof.
  revert l; induction mask as [|b mask IH]; intros [|x l]; simpl;
    try discriminate; [reflexivity|].
  destruct b; [discriminate|]. simpl. intros Hsum [= Hlen].
  now rewrite IH.
Qed.


Lemma boolean_index_sublist {A : Type} mask (l : list A) :
  boolean_index mask l `sublist_of` l.
Proof.
  revert l; induction mask as [|b mask IH]; intros [|x l];
    try apply sublist_nil_l.
  cbn [boolean_index]. destruct b; [apply sublist_skip | apply sublist_cons];
    apply IH.
Qed.

Variable key : Cell number → Cell number.

Lemma duplicated_length (d : DataFrame number) :
  length (duplicated key d) = length (values d).
Proof. unfold duplicated. now rewrite duplicated_scan_length, length_map. Qed.






Lemma drop_duplicates_sublist (d : DataFrame number) :
  values (drop_duplicates key d) `sublist_of` values d.
Proof. apply boolean_index_sublist. Qed.

Lemma drop_duplicates_nothing (d : DataFrame number) :
  sum (duplicated key d) = 0 → drop_duplicates key d = d.
Proof.
  intros Hsum. destruct d as [cols rows]. unfold drop_duplicates; simpl.
  f_equal. apply boolean_index_none_marked; [exact Hsum|].
  apply (duplicated_length (mkDataFrame cols rows)).
Qed.



End Duplicates.


(** *** Missing values *)

Section Missing.

Context {number : Type} `{EqDecision number}.
Implicit Types (d : DataFrame number) (r : Row number) (c : Cell number).

Lemma sum_counts_add {A : Type} (f g : A → nat) (l : list A) :
  sum_counts (map (fun x => f x + g x) l)
  = sum_counts (map f l) + sum_counts (map g l).
Proof. induction l as [|x l IH]; simpl; [reflexivity | rewrite IH; lia]. Qed.

Lemma map_nth_seq {A : Type} (l : list A) (default : A) :
  map (fun j => nth j l default) (seq 0 (length l)) = l.
Proof.
  apply list_eq. intros i.
  change (map ?f ?l) with (f <$> l). rewrite list_lookup_fmap.
  destruct (l !! i) as [x|] eqn:Hi.
  - assert (Hlt : i < length l) by (apply lookup_lt_is_Some; eauto).
    rewrite (proj2 (lookup_seq 0 (length l) i i)) by (split; [reflexivity|lia]).
    simpl. f_equal. now apply nth_lookup_Some with (d := default).
  - apply lookup_ge_None in Hi.
    destruct (seq 0 (length l) !! i) as [j|] eqn:Hj; [|reflexivity].
    apply lookup_seq in Hj. lia.
Qed.

Lemma sum_indicator (mask : list bool) :
  sum_counts (map (fun b : bool => if b then 1 else 0) mask) = sum mask.
Proof. induction mask as [|b mask IH]; simpl; [reflexivity | now rewrite IH]. Qed.

Lemma sum_is_null r :
  sum (map is_null r) = length (filter (fun c => is_null c = true) r).
Proof.
  induction r as [|c r IH]; [reflexivity|].
  rewrite filter_cons. cbn [map sum]. rewrite IH.
  destruct (is_null c);
    [rewrite decide_True by reflexivity | rewrite decide_False by discriminate];
    reflexivity.
Qed.

(** Adding up the per-column counts counts every null cell once. *)
Lemma sum_axis0_rows (ncols : nat) (rows : list (Row number)) :
  Forall (fun r => length r = ncols) rows →
  sum_counts (sum_axis0 ncols (map (map is_null) rows))
  = length (filter (fun c => is_null c = true) (concat rows)).
Proof.
  unfold sum_axis0. induction 1 as [|r rows Hr Hrows IH]; simpl.
  - induction (seq 0 ncols) as [|j l IHl]; simpl; [reflexivity | exact IHl].
  - rewrite (sum_counts_add
               (fun j => if nth j (map is_null r) false then 1 else 0)
               (fun j => sum (map (fun bs : list bool => nth j bs false)
                                  (map (map is_null) rows)))).
    rewrite IH, filter_app, length_app. f_equal.
    rewrite <- Hr, <- (length_map is_null r).
    rewrite <- (map_map (fun j => nth j (map is_null r) false)
                        (fun b : bool => if b then 1 else 0)).
    now rewrite map_nth_seq, sum_indicator, sum_is_null.
Qed.

Lemma isnull_sum_sum_null_cells d :
  rectangular d → isnull_sum_sum d = null_cells d.
Proof. intros Hd. now apply sum_axis0_rows. Qed.

Lemma iat_fillna (value : string) d (i j : nat) :
  iat (fillna value d) i j = fillna_cell value <$> iat d i j.
Proof.
  unfold iat, fillna; simpl.
  change (map ?f ?l) with (f <$> l). rewrite list_lookup_fmap.
  destruct (values d !! i) as [r|]; simpl; [|reflexivity].
  apply list_lookup_fmap.
Qed.

Lemma null_cells_iat d (i j : nat) :
  null_cells d = 0 → ∀ c, iat d i j = Some c → is_null c = false.
Proof.
  unfold null_cells, iat. intros Hnone c Hcell.
  destruct (is_null c) eqn:Hnull; [exfalso|reflexivity].
  destruct (values d !! i) as [r|] eqn:Hr; simpl in Hcell; [|discriminate].
  assert (Hin : c ∈ filter (fun c : Cell number => is_null c = true)
                           (concat (values d))).
  { apply list_elem_of_filter. split; [exact Hnull|].
    apply list_elem_of_In, in_concat. exists r.
    split; apply list_elem_of_In.
    - eapply list_elem_of_lookup_2, Hr.
    - eapply list_elem_of_lookup_2, Hcell. }
  destruct (filter _ (concat (values d))); [|discriminate].
  now apply elem_of_nil in Hin.
Qed.

(** The cells after the block of lines 86-92, whatever the count was. *)
Lemma fill_missing_values_iat d (i j : nat) :
  rectangular d →
  iat (fst (fill_missing_values d)) i j = fillna_cell "Missing" <$> iat d i j.
Proof.
  intros Hd. unfold fill_missing_values.
  destruct (Nat.ltb_spec 0 (isnull_sum_sum d)) as [Hlt|Hle]; simpl;
    [apply iat_fillna|].
  assert (Hnone : null_cells d = 0)
    by (rewrite <- isnull_sum_sum_null_cells by exact Hd; lia).
  pose proof (null_cells_iat d i j Hnone) as Hcell.
  destruct (iat d i j) as [c|]; simpl; [|reflexivity].
  unfold fillna_cell. now rewrite (Hcell c eq_refl).
Qed.

Lemma fill_missing_values_columns d :
  columns (fst (fill_missing_values d)) = columns d.
Proof.
  unfold fill_missing_values.
  now destruct (0 <? isnull_sum_sum d)%nat.
Qed.

Lemma fill_missing_values_report d :
  snd (fill_missing_values d)
  = [Write (if (isnull_sum_sum d =? 0)%nat then NoMissingValuesFound
            else MissingValuesFilled (isnull_sum_sum d))].
Proof.
  unfold fill_missing_values.
  destruct (Nat.ltb_spec 0 (isnull_sum_sum d)) as [Hlt|Hle]; simpl.
  - destruct (Nat.eqb_spec (isnull_sum_sum d) 0); [lia|reflexivity].
  - destruct (Nat.eqb_spec (isnull_sum_sum d) 0); [reflexivity|lia].
Qed.

(** When [fillna] returns, the missing-value block has counted the null
    cells of all rows and columns, put the text "Missing" in each of them,
    left every other cell, the shape and the columns as they are, and
    reported that count, or that no missing values were found when it is
    zero. *)
Lemma fill_missing_values_filled d :
  rectangular d →
  let d' := fst (fill_missing_values d) in
  let count := null_cells d in
  isnull_sum_sum d = count
  ∧ columns d' = columns d
  ∧ (∀ i j c, iat d i j = Some c → is_null c = true →
              iat d' i j = Some (Text "Missing"))
  ∧ (∀ i j c, iat d i j = Some c → is_null c = false → iat d' i j = Some c)
  ∧ (∀ i j, iat d i j = None → iat d' i j = None)
  ∧ snd (fill_missing_values d)
    = [Write (if (count =? 0)%nat then NoMissingValuesFound
              else MissingValuesFilled count)].
Proof.
  intros Hd d' count. subst d' count.
  rewrite <- (isnull_sum_sum_null_cells d Hd).
  split; [reflexivity|].
  split; [apply fill_missing_values_columns|].
  split; [|split; [|split; [|apply fill_missing_values_report]]].
  - intros i j c Hc Hnull. rewrite fill_missing_values_iat, Hc by exact Hd.
    simpl. unfold fillna_cell. now rewrite Hnull.
  - intros i j c Hc Hnull. rewrite fill_missing_values_iat, Hc by exact Hd.
    simpl. unfold fillna_cell. now rewrite Hnull.
  - intros i j Hc. now rewrite fill_missing_values_iat, Hc.
Qed.

End Missing.

(** *** JSON export of a filled table *)

Section Json.

Context {number : Type} `{EqDecision number}.
Variable pd : PandasAPI number.
Implicit Types (d : DataFrame number).

Lemma fillna_cell_not_null (value : string) (c : Cell number) :
  fillna_cell value c ≠ NaN.
Proof. now destruct c. Qed.

(** Member [j] of record [i] pairs the label of column [j] with the cell. *)
Lemma to_records_lookup d (i j : nat) (m : string * Cell number) :
  (∃ record, to_records d !! i = Some record ∧ record !! j = Some m)
  ↔ columns d !! j = Some (fst m) ∧ iat d i j = Some (snd m).
Proof.
  unfold to_records, iat.
  change (map ?f ?l) with (f <$> l). rewrite list_lookup_fmap.
  destruct (values d !! i) as [r|]; simpl.
  - split.
    + intros (record & [= <-] & Hm).
      apply lookup_zip_with_Some in Hm as (label & c & -> & Hlabel & Hc).
      now split.
    + intros [Hlabel Hc]. eexists. split; [reflexivity|].
      apply lookup_zip_with_Some. exists (fst m), (snd m).
      now destruct m.
  - split; [intros (record & [=] & _) | intros [_ [=]]].
Qed.

Lemma append_assoc (s1 s2 s3 : string) :
  (s1 +:+ s2) +:+ s3 = s1 +:+ s2 +:+ s3.
Proof. induction s1 as [|c s1 IH]; simpl; [reflexivity | now rewrite IH]. Qed.

Lemma occurs_in_refl (x : string) : occurs_in x x.
Proof. exists EmptyString, EmptyString. simpl. now rewrite append_empty. Qed.

Lemma occurs_in_between (x s before after : string) :
  occurs_in x s → occurs_in x (before +:+ s +:+ after).
Proof.
  intros (b & a & ->). exists (before +:+ b), (a +:+ after).
  now rewrite !append_assoc.
Qed.

Lemma json_items_occurs (x : string) (items : list string) :
  x ∈ items → occurs_in x (json_items items).
Proof.
  induction items as [|y items IH]; intros Hx; [now apply elem_of_nil in Hx|].
  apply elem_of_cons in Hx as [->|Hx].
  - destruct items as [|z items]; [apply occurs_in_refl|].
    exists EmptyString, ("," +:+ newline +:+ json_items (z :: items)).
    reflexivity.
  - destruct items as [|z items]; [now apply elem_of_nil in Hx|].
    change (json_items (y :: z :: items))
      with (y +:+ ("," +:+ newline) +:+ json_items (z :: items)).
    rewrite <- (append_empty (json_items (z :: items))).
    rewrite <- append_assoc. apply occurs_in_between. now apply IH.
Qed.

Lemma occurs_in_after (x s before : string) :
  occurs_in x s → occurs_in x (before +:+ s).
Proof.
  intros (b & a & ->). exists (before +:+ b), a. now rewrite append_assoc.
Qed.

Lemma occurs_in_trans (x y s : string) :
  occurs_in x y → occurs_in y s → occurs_in x s.
Proof. intros Hx (b & a & ->). now apply occurs_in_between. Qed.

(** A member of a record of the frame is printed in the text of the array,
    on a line of its own indented by eight spaces. *)
Lemma json_array_member d (i j : nat) (m : string * Cell number)
    (record : list (string * Cell number)) :
  to_records d !! i = Some record → record !! j = Some m →
  occurs_in ("        " +:+ json_string (fst m) +:+ ":"
               +:+ json_scalar (json_number pd) (snd m))
            (json_array (json_number pd) 4 (to_records d)).
Proof.
  intros Hrecord Hm. unfold json_array.
  rewrite <- (append_assoc "[" newline). apply occurs_in_between.
  apply (occurs_in_trans _ ("    " +:+ json_object (json_number pd) 4 1 record)).
  - apply occurs_in_after. unfold json_object.
    rewrite <- (append_assoc "{" newline).
    apply occurs_in_between, json_items_occurs.
    change (map ?f ?l) with (f <$> l). apply list_elem_of_fmap.
    exists m. split; [reflexivity|]. eapply list_elem_of_lookup_2, Hm.
  - apply json_items_occurs.
    change (map ?f ?l) with (f <$> l). apply list_elem_of_fmap.
    exists record. split; [reflexivity|].
    eapply list_elem_of_lookup_2, Hrecord.
Qed.

(** When [fillna] returns: for every table (in particular one with a
    numeric column holding nulls), filling the missing values and then
    exporting to JSON succeeds and yields the UTF-8 bytes of an array with
    one object per row, printed with four spaces per level; the member of a
    formerly null cell is the column label with the string "Missing", it is
    printed as such on a line of the text, and no member of any record is
    null. *)
Lemma filled_table_to_json d :
  rectangular d → NoDup (columns d) →
  let d' := fst (fill_missing_values (number := number) d) in
  let text := json_array (json_number pd) 4 (to_records d') in
  serialize pd JSON d' = inr (encode_utf8 text, "application/json")
  ∧ (∀ i j label c,
       iat d i j = Some c → is_null c = true → columns d !! j = Some label →
       (∃ record, to_records d' !! i = Some record
                  ∧ record !! j = Some (label, Text "Missing"))
       ∧ occurs_in ("        " +:+ json_string label +:+ ":"
                      +:+ quote +:+ "Missing" +:+ quote)
                   text)
  ∧ (∀ record m, record ∈ to_records d' → m ∈ record →
                 is_null (snd m) = false).
Proof.
  intros Hd Hcols d' text.
  assert (Hcols' : columns d' = columns d) by apply fill_missing_values_columns.
  split; [|split].
  - unfold serialize, to_json_records.
    rewrite decide_True by (rewrite Hcols'; exact Hcols). reflexivity.
  - intros i j label c Hcell Hnull Hlabel.
    assert (Hrecord : ∃ record, to_records d' !! i = Some record
                                ∧ record !! j = Some (label, Text "Missing")).
    { apply to_records_lookup. simpl. rewrite Hcols'. split; [exact Hlabel|].
      subst d'. rewrite fill_missing_values_iat, Hcell by exact Hd.
      simpl. unfold fillna_cell. now rewrite Hnull. }
    split; [exact Hrecord|].
    destruct Hrecord as (record & Hi & Hj).
    apply (json_array_member d' i j (label, Text "Missing") record Hi Hj).
  - intros record m [i Hi]%list_elem_of_lookup [j Hj]%list_elem_of_lookup.
    destruct (proj1 (to_records_lookup d' i j m)) as [_ Hcell]; [eauto|].
    subst d'. rewrite fill_missing_values_iat in Hcell by exact Hd.
    destruct (iat d i j) as [c|]; simpl in Hcell; [|discriminate].
    injection Hcell as <-. unfold fillna_cell. now destruct c.
Qed.

End Json.

(** *** One iteration of the loop *)

Section Iteration.

Context {number : Type} `{EqDecision number}.
Variable pd : PandasAPI number.
Variable st : StreamlitAPI.
Implicit Types (file : UploadedFile) (v : @Vars number) (d : DataFrame number).

Lemma loop_body_unsupported file v :
  lower (snd (splitext (name file))) ∉ SUPPORTED_TYPES →
  loop_body pd st file v
  = Next v [Error (UnsupportedFileType (lower (snd (splitext (name file)))))].
Proof.
  intros Hext. unfold loop_body.
  now rewrite (bool_decide_eq_false_2 _ Hext).
Qed.

Lemma loop_body_read_error file v (e : Exception) :
  lower (snd (splitext (name file))) ∈ SUPPORTED_TYPES →
  read_block pd file (lower (snd (splitext (name file)))) = Some (inl e) →
  loop_body pd st file v
  = Next v [Read (name file); Error (ErrorReading (name file) e)].
Proof.
  intros Hext Hread. unfold loop_body.
  now rewrite (bool_decide_eq_true_2 _ Hext), Hread.
Qed.

Lemma loop_body_read file v d :
  lower (snd (splitext (name file))) ∈ SUPPORTED_TYPES →
  read_block pd file (lower (snd (splitext (name file)))) = Some (inr d) →
  loop_body pd st file v
  = if empty d
    then Next (mkVars (Some d) (file_processed v))
              [Read (name file); Warning (IsEmpty (name file))]
    else Next (fst (process pd st file (lower (snd (splitext (name file)))) d
                            (mkVars (Some d) (file_processed v))))
              (Read (name file)
               :: snd (process pd st file (lower (snd (splitext (name file)))) d
                               (mkVars (Some d) (file_processed v)))).
Proof.
  intros Hext Hread. unfold loop_body.
  rewrite (bool_decide_eq_true_2 _ Hext), Hread. simpl.
  destruct (empty d); [reflexivity|].
  now destruct (process pd st file _ d _).
Qed.

(** The four ways an iteration can go. *)
Lemma loop_body_cases file v :
  let file_extension := lower (snd (splitext (name file))) in
  ((file_extension ∉ SUPPORTED_TYPES)
   ∧ loop_body pd st file v = Next v [Error (UnsupportedFileType file_extension)])
  ∨ (∃ e, loop_body pd st file v
          = Next v [Read (name file); Error (ErrorReading (name file) e)])
  ∨ (∃ d, empty d = true
          ∧ loop_body pd st file v
            = Next (mkVars (Some d) (file_processed v))
                   [Read (name file); Warning (IsEmpty (name file))])
  ∨ (∃ d, empty d = false
          ∧ loop_body pd st file v
            = Next (fst (process pd st file file_extension d
                                 (mkVars (Some d) (file_processed v))))
                   (Read (name file)
                    :: snd (process pd st file file_extension d
                                    (mkVars (Some d) (file_processed v))))).
Proof.
  intros file_extension.
  destruct (decide (file_extension ∈ SUPPORTED_TYPES)) as [Hext|Hext].
  - right.
    destruct (read_block_supported pd file _ Hext) as [[e|d] Hread].
    + left. exists e. now apply loop_body_read_error.
    + right. pose proof (loop_body_read file v d Hext Hread) as Hbody.
      destruct (empty d) eqn:Hempty; [left|right]; exists d; now split.
  - left. split; [exact Hext|]. now apply loop_body_unsupported.
Qed.

(** No iteration, and so no loop, ends in an uncaught exception. *)
Lemma loop_body_next file v : ∃ v' log, loop_body pd st file v = Next v' log.
Proof.
  destruct (loop_body_cases file v)
    as [[_ ->]|[[e ->]|[(d & _ & ->)|(d & _ & ->)]]]; eauto.
Qed.

Lemma for_loop_next (files : list UploadedFile) v :
  ∃ v' log, for_loop pd st files v = Next v' log.
Proof.
  revert v; induction files as [|file files IH]; intros v; simpl; [eauto|].
  destruct (loop_body_next file v) as (v1 & log1 & ->).
  destruct (IH v1) as (v2 & log2 & ->). simpl. eauto.
Qed.

(** What a later iteration shows and whether it converts does not depend on
    the frame [df] was left bound to. *)
Lemma loop_body_df file (o1 o2 : option (DataFrame number)) (fp : bool) v1 log :
  loop_body pd st file (mkVars o1 fp) = Next v1 log →
  ∃ v2, loop_body pd st file (mkVars o2 fp) = Next v2 log
        ∧ file_processed v2 = file_processed v1.
Proof.
  destruct (decide (lower (snd (splitext (name file))) ∈ SUPPORTED_TYPES))
    as [Hext|Hext].
  - destruct (read_block_supported pd file _ Hext) as [[e|d] Hread].
    + rewrite !(loop_body_read_error _ _ e Hext Hread).
      intros [= <- <-]. eauto.
    + rewrite !(loop_body_read _ _ d Hext Hread). simpl.
      destruct (empty d); intros [= <- <-]; eauto.
  - rewrite !(loop_body_unsupported _ _ Hext). intros [= <- <-]. eauto.
Qed.

Lemma for_loop_df_next (files : list UploadedFile)
    (o1 o2 : option (DataFrame number)) (fp : bool) v1 log :
  for_loop pd st files (mkVars o1 fp) = Next v1 log →
  ∃ v2, for_loop pd st files (mkVars o2 fp) = Next v2 log
        ∧ file_processed v2 = file_processed v1.
Proof.
  revert o1 o2 fp v1 log.
  induction files as [|file files IH]; intros o1 o2 fp v1 log; simpl.
  - intros [= <- <-]. eauto.
  - destruct (loop_body_next file (mkVars o1 fp)) as ([e1 f1] & l1 & Hbody).
    destruct (loop_body_df file o1 o2 fp _ _ Hbody) as ([e2 f2] & Hbody' & Hfp).
    simpl in Hfp. subst f2. rewrite Hbody, Hbody'.
    destruct (for_loop_next files (mkVars e1 f1)) as (x1 & l2 & Hrest).
    destruct (IH e1 e2 f1 _ _ Hrest) as (x2 & Hrest' & Hfp).
    rewrite Hrest, Hrest'. simpl. intros [= <- <-]. eauto.
Qed.

Lemma for_loop_df (files : list UploadedFile)
    (o1 o2 : option (DataFrame number)) (fp : bool) :
  shown (for_loop pd st files (mkVars o1 fp))
  = shown (for_loop pd st files (mkVars o2 fp)).
Proof.
  destruct (for_loop_next files (mkVars o1 fp)) as (v1 & log & Hloop).
  destruct (for_loop_df_next files o1 o2 fp v1 log Hloop) as (v2 & Hloop' & _).
  now rewrite Hloop, Hloop'.
Qed.

(** C6.  For every uploaded file whose reader raises, the iteration shows
    the error with the file name and the text of the exception right after
    the call of the reader and nothing else, leaves [df] and the flag as
    they were, and the loop goes on with the next file. *)
Theorem parse_error_reported_and_skipped file v (e : Exception)
    (rest : list UploadedFile) :
  let file_extension := lower (snd (splitext (name file))) in
  file_extension ∈ SUPPORTED_TYPES →
  read_block pd file file_extension = Some (inl e) →
  loop_body pd st file v
  = Next v [Read (name file); Error (ErrorReading (name file) e)]
  ∧ for_loop pd st (file :: rest) v
    = after [Read (name file); Error (ErrorReading (name file) e)]
            (for_loop pd st rest v).
Proof.
  intros file_extension Hext Hread.
  split; [now apply loop_body_read_error|].
  simpl. now rewrite (loop_body_read_error file v e Hext Hread).
Qed.

(** C4.  For every uploaded file that is read without error into a table
    with zero rows, the iteration shows the warning that the file is empty
    - not the message of a read error - and nothing else: the table is
    neither cleaned, nor charted, nor exported; the loop goes on with the
    next file, and what the later iterations show does not depend on that
    table. *)
Theorem empty_table_only_reported file v d (rest : list UploadedFile) :
  let file_extension := lower (snd (splitext (name file))) in
  let v' := mkVars (Some d) (file_processed v) in
  file_extension ∈ SUPPORTED_TYPES →
  read_block pd file file_extension = Some (inr d) →
  values d = [] →
  loop_body pd st file v
  = Next v' [Read (name file); Warning (IsEmpty (name file))]
  ∧ (∀ e, Warning (number := number) (IsEmpty (name file))
          ≠ Error (ErrorReading (name file) e))
  ∧ for_loop pd st (file :: rest) v
    = after [Read (name file); Warning (IsEmpty (name file))]
            (for_loop pd st rest v')
  ∧ (∀ o, shown (for_loop pd st rest v')
          = shown (for_loop pd st rest (mkVars o (file_processed v)))).
Proof.
  intros file_extension v' Hext Hread Hrows.
  assert (Hempty : empty d = true)
    by (unfold empty; rewrite Hrows; apply orb_true_r).
  assert (Hbody : loop_body pd st file v
                  = Next v' [Read (name file); Warning (IsEmpty (name file))])
    by (rewrite (loop_body_read file v d Hext Hread), Hempty; reflexivity).
  split; [exact Hbody|]. split; [discriminate|].
  split; [simpl; now rewrite Hbody|].
  intros o. apply for_loop_df.
Qed.

(** Lines 109-142 never rebind [df]: whatever the target format and
    whatever the writers return, after the body of the button and after the
    whole convert-and-download block the variable holds what it held, and
    at the end of the iteration that is the table as the two cleaning
    blocks left it.  (Whether pandas' writers change the frame they are
    given is pandas' matter; here a frame is a value.) *)
Lemma convert_never_rebinds_df file (file_extension : string) d v :
  (∀ conversion_type,
     df (fst (convert pd file file_extension conversion_type d v)) = df v)
  ∧ df (fst (convert_and_download pd st file file_extension d v)) = df v
  ∧ df (fst (process pd st file file_extension d v))
    = Some (fst (data_cleaning pd st file d)).
Proof.
  assert (Hconvert : ∀ conversion_type w,
            df (fst (convert pd file file_extension conversion_type d w)) = df w).
  { intros conversion_type w. unfold convert.
    now destruct (serialize pd conversion_type d) as [e|[data mime]]. }
  assert (Hblock : ∀ d0 w,
            df (fst (convert_and_download pd st file file_extension d0 w)) = df w).
  { intros d0 w. unfold convert_and_download.
    destruct (button st _); [|reflexivity].
    unfold convert.
    now destruct (serialize pd _ d0) as [e|[data mime]]. }
  split; [intros; apply Hconvert|]. split; [apply Hblock|].
  unfold process. destruct (data_cleaning pd st file d) as [d' log] eqn:Hclean.
  pose proof (Hblock d' (mkVars (Some d') (file_processed v))) as Hdf.
  destruct (convert_and_download pd st file file_extension d' _). exact Hdf.
Qed.

End Iteration.

(** *** The script with the calls that can raise *)

Lemma lower_char_spells (a b : ascii) :
  lower_char b = b →
  Ascii.eqb (lower_char a) b = Ascii.eqb a b || Ascii.eqb a (upper_char b).
Proof.
  assert (Hall : forallb (fun i =>
            forallb (fun j =>
              let a := ascii_of_nat i in
              let b := ascii_of_nat j in
              implb (Ascii.eqb (lower_char b) b)
                    (Bool.eqb (Ascii.eqb (lower_char a) b)
                              (Ascii.eqb a b || Ascii.eqb a (upper_char b))))
              (seq 0 256)) (seq 0 256) = true) by (vm_compute; reflexivity).
  intros Hb.
  assert (Hin : ∀ c, In (nat_of_ascii c) (seq 0 256))
    by (intros c; apply in_seq; pose proof (nat_ascii_bounded c); lia).
  pose proof (proj1 (forallb_forall _ _) Hall _ (Hin a)) as Hrow.
  pose proof (proj1 (forallb_forall _ _) Hrow _ (Hin b)) as Hcell.
  cbv zeta in Hcell. rewrite !ascii_nat_embedding in Hcell.
  rewrite Hb, Ascii.eqb_refl in Hcell. simpl in Hcell.
  now apply Bool.eqb_prop in Hcell.
Qed.

(** A text lower-cases to a lower-case text exactly when it spells it. *)
Lemma lower_spells (s x : string) :
  lower x = x → (lower s = x ↔ spells s x = true).
Proof.
  revert x; induction s as [|a s IH]; intros [|b x] Hx; simpl;
    try (split; discriminate); [tauto|].
  simpl in Hx. injection Hx as Hb Hx.
  rewrite andb_true_iff, <- (lower_char_spells a b Hb), <- (IH x Hx).
  rewrite Ascii.eqb_eq. split; [now intros [= -> ->] | now intros [-> ->]].
Qed.

Section Raising.

Context {number : Type} `{EqDecision number}.
Variable py : PythonAPI.
Variable pd : PandasAPI number.
Variable st : StreamlitAPI.
Implicit Types (file : UploadedFile) (files : list UploadedFile)
  (v : @Vars number) (d : DataFrame number) (log : list (@Event number))
  (widgets : list string).


Lemma iteration_unsupported widgets file v :
  str_lower py (snd (splitext (name file))) ∉ SUPPORTED_TYPES →
  iteration pd st py widgets file v
  = Continue widgets v
      [Error (UnsupportedFileType (str_lower py (snd (splitext (name file)))))].
Proof.
  intros Hext. unfold iteration.
  now rewrite (bool_decide_eq_false_2 _ Hext).
Qed.

(** C5.  For every uploaded file name the extension is a suffix of the
    name (empty, or starting at a dot); its lower-cased form is supported
    exactly when the extension spells ".csv", ".xlsx", ".json" or ".txt" in
    letters of either case, and each of the four selects its own reader.
    When it is not supported, the iteration shows the rejection message
    with the lower-cased extension and nothing else - no reader is called,
    no variable changes - and the loop goes on with the next file. *)
Theorem unsupported_extension_rejected widgets file v
    (rest : list UploadedFile) :
  lowers_extensions py →
  let extension := snd (splitext (name file)) in
  let file_extension := str_lower py extension in
  fst (splitext (name file)) +:+ extension = name file
  ∧ (extension = EmptyString ∨ ∃ tail, extension = String "."%char tail)
  ∧ (file_extension ∈ SUPPORTED_TYPES
     ↔ spells extension ".csv" = true ∨ spells extension ".xlsx" = true
       ∨ spells extension ".json" = true ∨ spells extension ".txt" = true)
  ∧ (spells extension ".csv" = true →
     file_extension = ".csv"
     ∧ read_block pd file file_extension = Some (read_csv pd file ","))
  ∧ (spells extension ".xlsx" = true →
     file_extension = ".xlsx"
     ∧ read_block pd file file_extension = Some (read_excel pd file))
  ∧ (spells extension ".json" = true →
     file_extension = ".json"
     ∧ read_block pd file file_extension = Some (read_json pd file))
  ∧ (spells extension ".txt" = true →
     file_extension = ".txt"
     ∧ read_block pd file file_extension = Some (read_csv pd file tab))
  ∧ (file_extension ∉ SUPPORTED_TYPES →
     iteration pd st py widgets file v
     = Continue widgets v [Error (UnsupportedFileType file_extension)]
     ∧ script_loop pd st py widgets (file :: rest) v
       = following [Error (UnsupportedFileType file_extension)]
                   (script_loop pd st py widgets rest v)).
Proof.
  intros Hlower extension file_extension.
  assert (Hspelled : ∀ x, x ∈ SUPPORTED_TYPES → lower x = x →
                          spells extension x = true → file_extension = x).
  { intros x Hx Hlow Hspells. apply (Hlower extension x Hx).
    now apply lower_spells. }
  assert (Hfour : ∀ x, x = ".csv" ∨ x = ".xlsx" ∨ x = ".json" ∨ x = ".txt" →
                       x ∈ SUPPORTED_TYPES) by (intros x; apply supported_types).
  split; [apply splitext_join|].
  split; [apply splitext_extension|].
  split.
  { rewrite supported_types. subst file_extension.
    rewrite (Hlower extension ".csv"), (Hlower extension ".xlsx"),
      (Hlower extension ".json"), (Hlower extension ".txt")
      by (apply Hfour; tauto).
    now rewrite !lower_spells by reflexivity. }
  split; [|split; [|split; [|split]]].
  - intros Hs. rewrite (Hspelled ".csv"); [now split|apply Hfour; tauto|
                                           reflexivity|exact Hs].
  - intros Hs. rewrite (Hspelled ".xlsx"); [now split|apply Hfour; tauto|
                                            reflexivity|exact Hs].
  - intros Hs. rewrite (Hspelled ".json"); [now split|apply Hfour; tauto|
                                            reflexivity|exact Hs].
  - intros Hs. rewrite (Hspelled ".txt"); [now split|apply Hfour; tauto|
                                           reflexivity|exact Hs].
  - intros Hext. split; [now apply iteration_unsupported|].
    cbn [script_loop]. now rewrite iteration_unsupported.
Qed.

End Raising.

(** *** The whole batch *)

Section Batch.

Context {number : Type} `{EqDecision number}.
Variable pd : PandasAPI number.
Variable st : StreamlitAPI.
Implicit Types (file : UploadedFile) (files : list UploadedFile)
  (v : @Vars number) (d : DataFrame number) (log : list (@Event number)).

Abbreviation quiet log := (Forall (fun e => is_quiet e = true) log).

Lemma quiet_reported files log : quiet log → well_reported st files log.
Proof. induction 1; [constructor | now apply reported_quiet]. Qed.

Lemma well_reported_app files log1 log2 :
  well_reported st files log1 → well_reported st files log2 →
  well_reported st files (log1 ++ log2).
Proof.
  induction 1; intros Hlog2; simpl;
    [exact Hlog2 | apply reported_quiet | apply reported_download]; auto.
Qed.

Lemma well_reported_mono files files' log :
  (∀ file, file ∈ files → file ∈ files') →
  well_reported st files log → well_reported st files' log.
Proof.
  intros Hsub. induction 1;
    [constructor | apply reported_quiet | apply reported_download]; auto.
Qed.

Lemma data_cleaning_quiet file d : quiet (snd (data_cleaning pd st file d)).
Proof.
  unfold data_cleaning, remove_duplicates, fill_missing_values.
  destruct (checkbox st _); [destruct (0 <? _)%nat|];
    (destruct (checkbox st _); [destruct (0 <? _)%nat|]);
    simpl; repeat constructor.
Qed.

Lemma data_visualization_quiet file d : quiet (data_visualization pd st file d).
Proof.
  unfold data_visualization.
  destruct (checkbox st _); [destruct (empty _)|]; simpl; repeat constructor.
Qed.

Lemma convert_and_download_reported file (file_extension : string) d v :
  let result := convert_and_download pd st file file_extension d v in
  well_reported st [file] (snd result)
  ∧ file_processed (fst result)
    = file_processed v || existsb is_download (snd result).
Proof.
  unfold convert_and_download, convert.
  destruct (button st _); [destruct (serialize pd _ d) as [e|[data mime]]|];
    simpl; rewrite ?orb_true_r, ?orb_false_r; (split; [|reflexivity]).
  - repeat (apply reported_quiet; [reflexivity|]). constructor.
  - repeat (apply reported_quiet; [reflexivity|]).
    apply reported_download; [apply list_elem_of_here | constructor].
  - repeat (apply reported_quiet; [reflexivity|]). constructor.
Qed.

Lemma existsb_quiet log : quiet log → existsb is_download log = false.
Proof.
  induction 1 as [|e log He _ IH]; [reflexivity|]. simpl. rewrite IH.
  unfold is_quiet in He. now destruct (is_download e), (is_aggregate e).
Qed.

Lemma process_reported file (file_extension : string) d v :
  let result := process pd st file file_extension d v in
  well_reported st [file] (snd result)
  ∧ file_processed (fst result)
    = file_processed v || existsb is_download (snd result).
Proof.
  unfold process.
  pose proof (data_cleaning_quiet file d) as Hclean.
  destruct (data_cleaning pd st file d) as [d' cleaning_log]. simpl in Hclean.
  pose proof (data_visualization_quiet file d') as Hchart.
  pose proof (convert_and_download_reported file file_extension d'
                (mkVars (Some d') (file_processed v))) as [Hreported Hflag].
  destruct (convert_and_download pd st file file_extension d' _)
    as [v' convert_log].
  cbn [fst snd app file_processed] in *. split.
  - repeat (apply reported_quiet; [reflexivity|]).
    repeat (apply well_reported_app; [now apply quiet_reported|]).
    exact Hreported.
  - cbn [existsb is_download orb].
    rewrite !existsb_app, (existsb_quiet _ Hclean), (existsb_quiet _ Hchart).
    exact Hflag.
Qed.

Lemma loop_body_reported file v v' log :
  loop_body pd st file v = Next v' log →
  well_reported st [file] log
  ∧ file_processed v' = file_processed v || existsb is_download log.
Proof.
  destruct (loop_body_cases pd st file v)
    as [[_ ->]|[[e ->]|[(d & _ & ->)|(d & _ & ->)]]]; intros [= <- <-];
    simpl; rewrite ?orb_false_r;
    try (split; [repeat (apply reported_quiet; [reflexivity|]); constructor
                |reflexivity]).
  destruct (process_reported file (lower (snd (splitext (name file)))) d
              (mkVars (Some d) (file_processed v))) as [Hreported Hflag].
  split; [now apply reported_quiet | exact Hflag].
Qed.

Lemma for_loop_reported files v v' log :
  for_loop pd st files v = Next v' log →
  well_reported st files log
  ∧ file_processed v' = file_processed v || existsb is_download log.
Proof.
  revert v v' log; induction files as [|file files IH]; intros v v' log; simpl.
  - intros [= <- <-]. split; [constructor | now rewrite orb_false_r].
  - destruct (loop_body_next pd st file v) as (v1 & log1 & Hbody).
    destruct (for_loop_next pd st files v1) as (v2 & log2 & Hrest).
    rewrite Hbody, Hrest. simpl. intros [= <- <-].
    destruct (loop_body_reported _ _ _ _ Hbody) as [Hlog1 Hflag1].
    destruct (IH _ _ _ Hrest) as [Hlog2 Hflag2].
    split.
    + apply well_reported_app.
      * eapply well_reported_mono, Hlog1.
        intros f ->%list_elem_of_singleton. apply list_elem_of_here.
      * eapply well_reported_mono, Hlog2.
        intros f Hf. now apply list_elem_of_further.
    + now rewrite existsb_app, Hflag2, Hflag1, orb_assoc.
Qed.




End Batch.

(** *** The name of the export *)

Section ExportName.

(** Whatever the target, the text put in place of the extension is the
    canonical extension of the target; Excel gives [.xlsx]. *)
Lemma export_file_name_canonical (file_name file_extension : string)
    (c : ConversionType) :
  export_file_name file_name file_extension (option_text c)
  = replace file_name file_extension (canonical_extension c).
Proof. now destruct c. Qed.

Lemma replace_scan_skip (old new : string) (skip : nat) (s : string) :
  String.length s <= skip → replace_scan old new skip s = EmptyString.
Proof.
  revert skip; induction s as [|c s IH]; intros skip Hlen; [reflexivity|].
  simpl in *. destruct skip as [|skip]; [lia|]. apply IH. lia.
Qed.

Lemma startswith_refl (s : string) : startswith s s = true.
Proof.
  induction s as [|c s IH]; [reflexivity|].
  simpl. now rewrite Ascii.eqb_refl, IH.
Qed.

(** When the extension occurs in the name only as its ending, the replace
    does put the new extension in place of the old one. *)
Lemma replace_trailing (stem old new : string) :
  old ≠ EmptyString →
  (∀ k, k < String.length stem →
        startswith (slice_from k (stem +:+ old)) old = false) →
  replace (stem +:+ old) old new = stem +:+ new.
Proof.
  intros Hold. unfold replace.
  destruct old as [|a old']; [contradiction|]. clear Hold.
  induction stem as [|c stem IH]; intros Hstem.
  - change (EmptyString +:+ String a old') with (String a old').
    cbn [replace_scan]. rewrite startswith_refl.
    rewrite replace_scan_skip by (simpl; lia). apply append_empty.
  - change (String c stem +:+ String a old')
      with (String c (stem +:+ String a old')).
    cbn [replace_scan].
    pose proof (Hstem 0 ltac:(simpl; lia)) as H0. simpl slice_from in H0.
    change (String c stem +:+ String a old')
      with (String c (stem +:+ String a old')) in H0.
    rewrite H0.
    change (String c stem +:+ new) with (String c (stem +:+ new)).
    f_equal. apply IH.
    intros k Hk. apply (Hstem (S k)). simpl. lia.
Qed.

(** C3.  The text that replaces the extension is canonical for every
    target, but the name of the export is not always the original name with
    its trailing extension replaced.  For "a.csv.csv" with target JSON the
    script offers "a.json.json", where the specification asks for
    "a.csv.json": the replace of lines 114 and 116 rewrites every occurrence
    of the extension.  For "DATA.CSV" with target JSON the script offers
    "DATA.CSV", where the specification asks for "DATA.json": the extension
    searched for is the lower-cased one, which does not occur in the
    name. *)
Theorem export_file_name_replaces_every_occurrence :
  (∀ file_name file_extension c,
     export_file_name file_name file_extension (option_text c)
     = replace file_name file_extension (canonical_extension c))
  ∧ lower (snd (splitext "a.csv.csv")) ∈ SUPPORTED_TYPES
  ∧ export_file_name "a.csv.csv" (lower (snd (splitext "a.csv.csv")))
                     (option_text JSON)
    = "a.json.json"
  ∧ replaced_extension "a.csv.csv" JSON = "a.csv.json"
  ∧ lower (snd (splitext "DATA.CSV")) ∈ SUPPORTED_TYPES
  ∧ export_file_name "DATA.CSV" (lower (snd (splitext "DATA.CSV")))
                     (option_text JSON)
    = "DATA.CSV"
  ∧ replaced_extension "DATA.CSV" JSON = "DATA.json".
Proof.
  split; [apply export_file_name_canonical|].
  repeat split; try reflexivity; apply supported_types; vm_compute; tauto.
Qed.

End ExportName.

(** ** The properties on the sample inputs *)

Lemma scores_rectangular : rectangular Sample.scores.
Proof. repeat constructor. Defined.

Lemma scores_columns : NoDup (columns Sample.scores).
Proof.
  apply NoDup_cons. split; [|apply NoDup_singleton].
  intros Hin%list_elem_of_singleton. discriminate.
Defined.

Lemma pdf_unsupported :
  lower (snd (splitext (name Sample.unsupported_file))) ∉ SUPPORTED_TYPES.
Proof.
  intros Hin%supported_types.
  destruct Hin as [Hin|[Hin|[Hin|Hin]]]; discriminate.
Defined.

Lemma sample_supported (file : UploadedFile) :
  In (name file) ["broken.json"; "empty.csv"; "scores.csv"] →
  lower (snd (splitext (name file))) ∈ SUPPORTED_TYPES.
Proof.
  intros [<-|[<-|[<-|[]]]]; apply supported_types; vm_compute; tauto.
Defined.

Lemma parse_error_reported_and_skipped_witness :
  read_block Sample.pandas Sample.broken_file ".json"
  = Some (inl "Expecting value")
  ∧ for_loop Sample.pandas Sample.all_on
             [Sample.broken_file; Sample.unsupported_file] (mkVars None false)
    = Next (mkVars None false)
           [Read "broken.json";
            Error (ErrorReading "broken.json" "Expecting value");
            Error (UnsupportedFileType ".pdf")].
Proof.
  split; [reflexivity|].
  destruct (parse_error_reported_and_skipped Sample.pandas Sample.all_on
              Sample.broken_file (mkVars None false) "Expecting value"
              [Sample.unsupported_file]
              (sample_supported Sample.broken_file (or_introl eq_refl))
              eq_refl)
    as [_ Hloop].
  rewrite Hloop. reflexivity.
Defined.

Lemma empty_table_only_reported_witness :
  read_block Sample.pandas Sample.empty_file ".csv" = Some (inr Sample.no_rows)
  ∧ values Sample.no_rows = []
  ∧ loop_body Sample.pandas Sample.all_on Sample.empty_file (mkVars None false)
    = Next (mkVars (Some Sample.no_rows) false)
           [Read "empty.csv"; Warning (IsEmpty "empty.csv")].
Proof.
  split; [reflexivity|]. split; [reflexivity|].
  destruct (empty_table_only_reported Sample.pandas Sample.all_on
              Sample.empty_file (mkVars None false) Sample.no_rows []
              (sample_supported Sample.empty_file (or_intror (or_introl eq_refl)))
              eq_refl eq_refl)
    as [Hbody _].
  exact Hbody.
Defined.

(** ** Further properties of the script *)

(** *** Replacing the extension (lines 112-116) *)

Lemma replace_scan_slice (old new : string) (skip : nat) (s : string) :
  replace_scan old new skip s = replace_scan old new 0 (slice_from skip s).
Proof.
  revert skip; induction s as [|c s IH]; intros [|skip]; try reflexivity.
  cbn [replace_scan slice_from]. apply IH.
Qed.

Lemma startswith_split (s old : string) :
  startswith s old = true → s = old +:+ slice_from (String.length old) s.
Proof.
  revert s; induction old as [|a old IH]; intros s Hs; [reflexivity|].
  destruct s as [|c s]; [discriminate|]. simpl in Hs.
  apply andb_true_iff in Hs as [Hac Hs]. apply Ascii.eqb_eq in Hac as ->.
  simpl. f_equal. now apply IH.
Qed.

Lemma slice_from_length (n : nat) (s : string) :
  String.length (slice_from n s) <= String.length s.
Proof.
  revert s; induction n as [|n IH]; intros [|c s]; simpl; try lia.
  specialize (IH s). lia.
Qed.

Lemma replace_scan_same (a : ascii) (old' : string) (n : nat) (s : string) :
  String.length s <= n →
  replace_scan (String a old') (String a old') 0 s = s.
Proof.
  revert s; induction n as [|n IH]; intros [|c s] Hlen; try reflexivity;
    [simpl in Hlen; lia|].
  cbn [replace_scan].
  destruct (startswith (String c s) (String a old')) eqn:Hstart.
  - rewrite replace_scan_slice, IH.
    + apply startswith_split in Hstart.
      transitivity (String a old'
                      +:+ slice_from (String.length (String a old')) (String c s));
        [|symmetry; exact Hstart].
      cbn [String.length slice_from].
      now replace (S (String.length old') - 1) with (String.length old') by lia.
    + pose proof (slice_from_length (String.length (String a old') - 1) s).
      simpl in Hlen. lia.
  - f_equal. apply IH. simpl in Hlen. lia.
Qed.

Lemma intersperse_empty (s : string) : intersperse EmptyString s = s.
Proof. induction s as [|c s IH]; simpl; [reflexivity | now rewrite IH]. Qed.

(** Replacing a text by itself changes nothing. *)
Lemma replace_same (s old : string) : replace s old old = s.
Proof.
  destruct old as [|a old']; [apply intersperse_empty|].
  now apply replace_scan_same with (n := String.length s).
Qed.

(** A text that does not occur is not replaced. *)
Lemma replace_absent (s old new : string) :
  (∀ k, startswith (slice_from k s) old = false) →
  replace s old new = s.
Proof.
  intros Habsent. unfold replace.
  destruct old as [|a old']; [now specialize (Habsent 0); destruct s|].
  induction s as [|c s IH]; [reflexivity|].
  cbn [replace_scan]. pose proof (Habsent 0) as H0. cbn [slice_from] in H0.
  rewrite H0. f_equal. apply IH. intros k. apply (Habsent (S k)).
Qed.

(** X9.  Exporting to the format the file already has keeps its name: when
    the canonical extension of the target is the (lower-cased) extension of
    the file, the name of the export is the name of the file, whatever the
    name looks like. *)
Theorem export_same_format_keeps_name (file_name file_extension : string)
    (c : ConversionType) :
  canonical_extension c = file_extension →
  export_file_name file_name file_extension (option_text c) = file_name.
Proof.
  intros <-. rewrite export_file_name_canonical. apply replace_same.
Qed.

(** X10.  When the lower-cased extension occurs in the name only as its
    ending, the name of the export is the name with that ending replaced by
    the canonical extension of the target. *)
Theorem export_name_trailing_extension (stem file_extension : string)
    (c : ConversionType) :
  file_extension ∈ SUPPORTED_TYPES →
  (∀ k, k < String.length stem →
        startswith (slice_from k (stem +:+ file_extension)) file_extension
        = false) →
  export_file_name (stem +:+ file_extension) file_extension (option_text c)
  = stem +:+ canonical_extension c.
Proof.
  intros Hext Honce. rewrite export_file_name_canonical.
  apply replace_trailing; [|exact Honce].
  apply supported_types in Hext as [-> | [-> | [-> | ->]]]; discriminate.
Qed.

(** X11.  When the lower-cased extension does not occur in the name at all
    (the name spells its extension with an upper-case letter), the name of
    the export is the unchanged name of the file, for every target. *)
Theorem export_name_unchanged_when_extension_absent
    (file_name file_extension : string) (c : ConversionType) :
  (∀ k, startswith (slice_from k file_name) file_extension = false) →
  export_file_name file_name file_extension (option_text c) = file_name.
Proof.
  intros Habsent. rewrite export_file_name_canonical.
  now apply replace_absent.
Qed.

(** *** Reading the extension (lines 44-49) *)

Lemma lower_char_eqb_dot (a : ascii) :
  Ascii.eqb (lower_char a) "."%char = Ascii.eqb a "."%char.
Proof. destruct a as [[] [] [] [] [] [] [] []]; reflexivity. Qed.

Lemma lower_char_eqb_sep (a : ascii) :
  Ascii.eqb (lower_char a) "/"%char = Ascii.eqb a "/"%char.
Proof. destruct a as [[] [] [] [] [] [] [] []]; reflexivity. Qed.

Lemma rfind_lower (s : string) (c : ascii) :
  c = "."%char ∨ c = "/"%char → rfind (lower s) c = rfind s c.
Proof.
  intros Hc. induction s as [|a s IH]; [reflexivity|].
  simpl. rewrite IH.
  destruct Hc as [-> | ->];
    [rewrite lower_char_eqb_dot | rewrite lower_char_eqb_sep]; reflexivity.
Qed.

Lemma get_lower (i : nat) (s : string) :
  String.get i (lower s) = option_map lower_char (String.get i s).
Proof.
  revert i; induction s as [|a s IH]; intros [|i]; simpl; try reflexivity.
  apply IH.
Qed.

Lemma slice_to_lower (n : nat) (s : string) :
  slice_to n (lower s) = lower (slice_to n s).
Proof.
  revert s; induction n as [|n IH]; intros [|a s]; simpl; try reflexivity.
  now rewrite IH.
Qed.

Lemma slice_from_lower (n : nat) (s : string) :
  slice_from n (lower s) = lower (slice_from n s).
Proof.
  revert s; induction n as [|n IH]; intros [|a s]; simpl; try reflexivity.
  apply IH.
Qed.

Lemma splitext_loop_lower (n : nat) (p : string) (i k : nat) :
  splitext_loop n (lower p) i k
  = (lower (fst (splitext_loop n p i k)), lower (snd (splitext_loop n p i k))).
Proof.
  revert i; induction n as [|n IH]; intros i; [reflexivity|].
  cbn [splitext_loop]. rewrite get_lower.
  destruct (String.get i p) as [c|]; simpl;
    [|now rewrite slice_to_lower, slice_from_lower].
  destruct c as [[] [] [] [] [] [] [] []];
    try (cbn; now rewrite slice_to_lower, slice_from_lower).
  apply IH.
Qed.

(** Splitting the lower-cased name gives the lower-cased halves. *)
Lemma splitext_lower (p : string) :
  splitext (lower p) = (lower (fst (splitext p)), lower (snd (splitext p))).
Proof.
  unfold splitext. rewrite !rfind_lower by tauto.
  destruct (rfind p "/" <? rfind p ".")%Z; [|reflexivity].
  apply splitext_loop_lower.
Qed.

Lemma rfind_latest (s : string) (c : ascii) :
  (∀ i, String.get (S i) s ≠ Some c) → (rfind s c <= 0)%Z.
Proof.
  intros Habsent.
  destruct (Z.le_gt_cases (rfind s c) 0) as [Hle|Hgt]; [exact Hle|].
  pose proof (rfind_get s c ltac:(lia)) as Hget.
  replace (Z.to_nat (rfind s c)) with (S (Z.to_nat (rfind s c - 1))) in Hget
    by lia.
  now apply Habsent in Hget.
Qed.

(** A name with no dot after its first character has no extension. *)
Lemma splitext_no_extension (p : string) :
  (∀ i, String.get (S i) p ≠ Some "."%char) →
  snd (splitext p) = EmptyString.
Proof.
  intros Hdots. unfold splitext.
  pose proof (rfind_latest p "."%char Hdots) as Hdot.
  pose proof (rfind_range p "/"%char) as Hsep.
  destruct (Z.ltb_spec (rfind p "/") (rfind p ".")) as [Hlt|Hge];
    [|reflexivity].
  replace (rfind p ".") with 0%Z by lia.
  replace (rfind p "/") with (-1)%Z by lia.
  reflexivity.
Qed.

Section NoExtension.

Context {number : Type} `{EqDecision number}.
Variable pd : PandasAPI number.
Variable st : StreamlitAPI.

(** X8.  A file whose name has no dot after its first character (no
    extension at all, or a hidden-file name such as ".csv") is rejected as
    unsupported, with an empty extension in the message; no reader is
    called. *)
Theorem name_without_extension_rejected (file : UploadedFile)
    (v : @Vars number) :
  (∀ i, String.get (S i) (name file) ≠ Some "."%char) →
  loop_body pd st file v = Next v [Error (UnsupportedFileType EmptyString)].
Proof.
  intros Hdots.
  pose proof (splitext_no_extension (name file) Hdots) as Hext.
  rewrite loop_body_unsupported; rewrite Hext; [reflexivity|].
  intros Hin%supported_types.
  destruct Hin as [Hin|[Hin|[Hin|Hin]]]; discriminate.
Qed.

End NoExtension.

(** *** The two cleaning blocks together (lines 77-92) *)

Section Cleaning.

Context {number : Type} `{EqDecision number}.
Variable py : PythonAPI.
Variable pd : PandasAPI number.
Variable st : StreamlitAPI.
Implicit Types (d : DataFrame number) (c : Cell number)
  (rows seen : list (Row number)).

Lemma Forall_kept {A : Type} (P : A → Prop) (l1 l2 : list A) :
  l1 `sublist_of` l2 → Forall P l2 → Forall P l1.
Proof.
  intros Hsub Hl2. apply Forall_forall. intros x Hx.
  eapply Forall_forall; [exact Hl2|]. eapply elem_of_sublist; eassumption.
Qed.

Lemma drop_duplicates_first d (r : Row number) rows :
  values d = r :: rows →
  ∃ rows', values (drop_duplicates (hash_key pd (length (columns d))) d) = r :: rows'.
Proof.
  unfold drop_duplicates, duplicated. intros ->.
  cbn [values map duplicated_scan].
  destruct (decide (map (hash_key pd (length (columns d))) r ∈ [])) as [Hin|_];
    [now apply not_elem_of_nil in Hin|].
  simpl. eauto.
Qed.

(** The frame after the fill block is the filled frame, or the frame as it
    was when nothing was counted. *)
Lemma fill_missing_values_frame d :
  (0 < isnull_sum_sum d ∧ fst (fill_missing_values d) = fillna "Missing" d)
  ∨ (isnull_sum_sum d = 0 ∧ fst (fill_missing_values d) = d).
Proof.
  unfold fill_missing_values.
  destruct (Nat.ltb_spec 0 (isnull_sum_sum d)); simpl; [left|right];
    split; (reflexivity || lia).
Qed.

Lemma sum_axis0_no_nulls (ncols : nat) rows :
  Forall (Forall (fun c => is_null c = false)) rows →
  sum_counts (sum_axis0 ncols (map (map is_null) rows)) = 0.
Proof.
  intros Hrows. unfold sum_axis0.
  assert (Hcolumn : ∀ j, sum (map (fun bs : list bool => nth j bs false)
                                  (map (map is_null) rows)) = 0).
  { intros j. induction Hrows as [|r rows Hr _ IH]; [reflexivity|].
    cbn [map sum]. rewrite IH.
    assert (Hcell : nth j (map is_null r) false = false); [|now rewrite Hcell].
    clear IH. revert j. induction Hr as [|c r Hc _ IHr]; intros [|j]; simpl;
      try reflexivity; [exact Hc | apply IHr]. }
  induction (seq 0 ncols) as [|j l IH]; [reflexivity|].
  cbn [map sum_counts]. now rewrite Hcolumn, IH.
Qed.

Lemma fillna_no_nulls (value : string) d :
  Forall (Forall (fun c => is_null c = false)) (values (fillna value d)).
Proof.
  unfold fillna; simpl. induction (values d) as [|r rows IH]; constructor;
    [|exact IH].
  induction r as [|c r IHr]; constructor; [now destruct c | exact IHr].
Qed.

Lemma isnull_sum_sum_fillna (value : string) d :
  isnull_sum_sum (fillna value d) = 0.
Proof. apply sum_axis0_no_nulls, fillna_no_nulls. Qed.

Lemma fill_missing_values_nothing d :
  isnull_sum_sum d = 0 →
  fill_missing_values d = (d, [Write NoMissingValuesFound]).
Proof. intros Hnone. unfold fill_missing_values. now rewrite Hnone. Qed.

Lemma fill_missing_values_counted d :
  isnull_sum_sum (fst (fill_missing_values d)) = 0.
Proof.
  destruct (fill_missing_values_frame d) as [[_ ->]|[Hnone ->]];
    [apply isnull_sum_sum_fillna | exact Hnone].
Qed.

Lemma fill_missing_values_block_returns d d1 (report : list (@Event number)) :
  fill_missing_values_block pd d = inr (d1, report) →
  (d1, report) = fill_missing_values d.
Proof.
  unfold fill_missing_values_block.
  destruct (if (0 <? isnull_sum_sum d)%nat then _ else _); [discriminate|].
  now intros [= <-].
Qed.

(** X12.  The missing-value fill is idempotent: when a first run returns, a
    second run right after it counts no null cell, does not call [fillna]
    and so cannot raise, reports that no missing values were found and
    leaves the table as the first run left it. *)
Theorem fill_missing_values_idempotent d d1 (report : list (@Event number)) :
  fill_missing_values_block pd d = inr (d1, report) →
  isnull_sum_sum d1 = 0
  ∧ fill_missing_values_block pd d1 = inr (d1, [Write NoMissingValuesFound]).
Proof.
  intros Hfirst%fill_missing_values_block_returns.
  assert (Hnone : isnull_sum_sum d1 = 0).
  { replace d1 with (fst (fill_missing_values d)) by now rewrite <- Hfirst.
    apply fill_missing_values_counted. }
  split; [exact Hnone|].
  unfold fill_missing_values_block. rewrite Hnone. cbn.
  now rewrite (fill_missing_values_nothing _ Hnone).
Qed.

Lemma fillna_rectangular (value : string) d :
  rectangular d → rectangular (fillna value d).
Proof.
  unfold rectangular, fillna; simpl. intros Hd.
  induction Hd as [|r rows Hr _ IH]; constructor; [|exact IH].
  now rewrite length_map.
Qed.

Lemma data_cleaning_frame (file : UploadedFile) d :
  fst (data_cleaning pd st file d)
  = let d1 := if checkbox st ("Remove Duplicates from " +:+ name file)
              then fst (remove_duplicates pd d) else d in
    if checkbox st ("Fill Missing Values for " +:+ name file)
    then fst (fill_missing_values d1) else d1.
Proof.
  unfold data_cleaning.
  destruct (checkbox st ("Remove Duplicates from " +:+ name file));
    [destruct (remove_duplicates pd d) as [d1 log1]|];
    (destruct (checkbox st ("Fill Missing Values for " +:+ name file));
     [destruct (fill_missing_values _) as [d2 log2]|]); reflexivity.
Qed.

Lemma remove_duplicates_frame d :
  fst (remove_duplicates pd d) = drop_duplicates (hash_key pd (length (columns d))) d.
Proof.
  unfold remove_duplicates.
  destruct (Nat.ltb_spec 0
              (sum (duplicated (hash_key pd (length (columns d))) d)));
    simpl;
    [reflexivity|].
  symmetry. apply drop_duplicates_nothing. lia.
Qed.


(** When neither cleaning call raises, the block is [data_cleaning]. *)
Lemma data_cleaning_block_returns (file : UploadedFile) d d'
    (log : list (@Event number)) :
  data_cleaning_block pd st file d = inr (d', log) →
  (d', log) = data_cleaning pd st file d.
Proof.
  unfold data_cleaning_block, data_cleaning, remove_duplicates_block.
  destruct (checkbox st ("Remove Duplicates from " +:+ name file)).
  - destruct (all_hashable d); [|discriminate].
    destruct (remove_duplicates pd d) as [d1 log1].
    destruct (checkbox st ("Fill Missing Values for " +:+ name file)).
    + destruct (fill_missing_values_block pd d1) as [e|[d2 log2]] eqn:Hfill;
        [discriminate|].
      apply fill_missing_values_block_returns in Hfill. rewrite <- Hfill.
      now intros [= <- <-].
    + now intros [= <- <-].
  - destruct (checkbox st ("Fill Missing Values for " +:+ name file)).
    + destruct (fill_missing_values_block pd d) as [e|[d2 log2]] eqn:Hfill;
        [discriminate|].
      apply fill_missing_values_block_returns in Hfill. rewrite <- Hfill.
      now intros [= <- <-].
    + now intros [= <- <-].
Qed.

Lemma data_cleaning_shape (file : UploadedFile) d :
  rectangular d → empty d = false →
  let d' := fst (data_cleaning pd st file d) in
  columns d' = columns d
  ∧ rectangular d'
  ∧ length (values d') <= length (values d)
  ∧ empty d' = false.
Proof.
  intros Hd Hempty d'. subst d'. rewrite data_cleaning_frame.
  set (d1 := if checkbox st _ then fst (remove_duplicates pd d) else d).
  assert (H1 : columns d1 = columns d ∧ rectangular d1
               ∧ length (values d1) <= length (values d) ∧ empty d1 = false).
  { subst d1. destruct (checkbox st _); [|repeat split; (assumption || lia)].
    rewrite remove_duplicates_frame.
    split; [reflexivity|]. split; [|split].
    - eapply Forall_kept; [apply drop_duplicates_sublist | exact Hd].
    - apply sublist_length, drop_duplicates_sublist.
    - unfold empty in *. apply orb_false_iff in Hempty as [Hcols Hrows].
      apply orb_false_iff. split; [exact Hcols|].
      destruct (values d) as [|r rows] eqn:Hvalues; [discriminate|].
      destruct (drop_duplicates_first d r rows Hvalues) as [rows' ->].
      reflexivity. }
  destruct H1 as (Hcols1 & Hrect1 & Hlen1 & Hempty1). clearbody d1.
  cbv zeta.
  destruct (checkbox st _); [|repeat split; assumption].
  destruct (fill_missing_values_frame d1) as [[_ ->]|[_ ->]];
    [|repeat split; assumption].
  split; [exact Hcols1|]. split; [now apply fillna_rectangular|].
  unfold empty, fillna in *; simpl. rewrite length_map. now split.
Qed.


(** X13.  When the cleaning returns, whatever is ticked, it has kept the
    table a table: the columns stay, every row still has one cell per
    column, no row is added, and a table that passed the empty-table guard
    is still not empty, so the chart and the export never get an empty
    table. *)
Theorem data_cleaning_keeps_shape (file : UploadedFile) d d'
    (log : list (@Event number)) :
  rectangular d → empty d = false →
  data_cleaning_block pd st file d = inr (d', log) →
  columns d' = columns d
  ∧ rectangular d'
  ∧ length (values d') <= length (values d)
  ∧ empty d' = false.
Proof.
  intros Hd Hempty Hblock%data_cleaning_block_returns.
  replace d' with (fst (data_cleaning pd st file d)) by now rewrite <- Hblock.
  now apply data_cleaning_shape.
Qed.

End Cleaning.

(** *** The loop and the conversion (lines 40-148) *)

Section Conversion.

Context {number : Type} `{EqDecision number}.
Variable pd : PandasAPI number.
Variable st : StreamlitAPI.
Implicit Types (file : UploadedFile) (files : list UploadedFile)
  (v : @Vars number) (d : DataFrame number) (log : list (@Event number)).


Lemma process_parts file (file_extension : string) d v :
  let d' := fst (data_cleaning pd st file d) in
  let converted :=
    convert_and_download pd st file file_extension d'
                         (mkVars (Some d') (file_processed v)) in
  process pd st file file_extension d v
  = (fst converted,
     [Write (FileName (name file)); Write (FileSize (size file));
      Write Preview; Dataframe (head d)]
       ++ snd (data_cleaning pd st file d)
       ++ data_visualization pd st file d'
       ++ snd converted).
Proof.
  unfold process. destruct (data_cleaning pd st file d) as [d' cleaning_log].
  cbn [fst snd]. now destruct (convert_and_download pd st file _ d' _).
Qed.

Lemma convert_and_download_log file (file_extension : string) d v1 v2 :
  snd (convert_and_download pd st file file_extension d v1)
  = snd (convert_and_download pd st file file_extension d v2).
Proof.
  unfold convert_and_download, convert.
  destruct (button st _); [|reflexivity].
  now destruct (serialize pd _ d) as [e|[data mime]].
Qed.

(** What an iteration shows does not depend on the variables it starts
    with. *)
Lemma loop_body_log file v1 v2 :
  shown (loop_body pd st file v1) = shown (loop_body pd st file v2).
Proof.
  destruct (decide (lower (snd (splitext (name file))) ∈ SUPPORTED_TYPES))
    as [Hext|Hext].
  - destruct (read_block_supported pd file _ Hext) as [[e|d] Hread].
    + now rewrite !(loop_body_read_error pd st _ _ e Hext Hread).
    + rewrite !(loop_body_read pd st _ _ d Hext Hread).
      destruct (empty d); [reflexivity|]. cbn [shown].
      rewrite !process_parts. cbn [snd]. do 4 f_equal.
      apply convert_and_download_log.
  - now rewrite !(loop_body_unsupported pd st _ _ Hext).
Qed.

Lemma for_loop_log files v v0 :
  shown (for_loop pd st files v)
  = concat (map (fun file => shown (loop_body pd st file v0)) files).
Proof.
  revert v; induction files as [|file files IH]; intros v; [reflexivity|].
  cbn [for_loop map concat].
  rewrite <- (loop_body_log file v v0).
  destruct (loop_body_next pd st file v) as (v1 & log1 & ->).
  rewrite <- (IH v1).
  now destruct (for_loop_next pd st files v1) as (v2 & log2 & ->).
Qed.

Lemma existsb_concat {A : Type} (f : A → bool) (ls : list (list A)) :
  existsb f (concat ls) = existsb (existsb f) ls.
Proof.
  induction ls as [|l ls IH]; [reflexivity|].
  cbn [concat existsb]. now rewrite existsb_app, IH.
Qed.

Lemma existsb_mapped {A B : Type} (f : B → bool) (g : A → B) (l : list A) :
  existsb f (map g l) = existsb (fun x => f (g x)) l.
Proof.
  induction l as [|x l IH]; [reflexivity|]. cbn [map existsb]. now rewrite IH.
Qed.

Lemma before_conversion_no_download file d :
  existsb is_download (before_conversion pd st file d) = false.
Proof.
  unfold before_conversion. cbn [existsb is_download orb app].
  rewrite !existsb_app.
  rewrite (existsb_quiet _ (data_cleaning_quiet pd st file d)).
  rewrite (existsb_quiet _ (data_visualization_quiet pd st file _)).
  reflexivity.
Qed.

Lemma loop_body_processed file v d :
  lower (snd (splitext (name file))) ∈ SUPPORTED_TYPES →
  read_block pd file (lower (snd (splitext (name file)))) = Some (inr d) →
  empty d = false →
  let d' := fst (data_cleaning pd st file d) in
  let outcome :=
    if button st ("Convert " +:+ name file)
    then convert pd file (lower (snd (splitext (name file))))
                 (radio st (name file)) d'
                 (mkVars (Some d') (file_processed v))
    else (mkVars (Some d') (file_processed v), []) in
  loop_body pd st file v
  = Next (fst outcome) (before_conversion pd st file d ++ snd outcome).
Proof.
  intros Hext Hread Hempty d' outcome. subst d' outcome.
  rewrite (loop_body_read pd st file v d Hext Hread), Hempty, process_parts.
  cbn [fst snd]. unfold convert_and_download, before_conversion.
  destruct (button st _); [destruct (convert pd file _ _ _ _) as [v' log]|];
    cbn [fst snd app]; f_equal; f_equal; rewrite <- ?app_assoc; reflexivity.
Qed.





End Conversion.

(** *** The further properties on the sample inputs *)

Lemma sample_batch_not_empty :
  [Sample.unsupported_file; Sample.broken_file; Sample.good_file] ≠ [].
Proof. discriminate. Defined.

Lemma scores_not_empty : empty Sample.scores = false.
Proof. reflexivity. Defined.





Lemma hidden_file_dots :
  ∀ i, String.get (S i) (name Sample.hidden_file) ≠ Some "."%char.
Proof.
  intros i. do 4 (destruct i as [|i]; [discriminate|]). discriminate.
Defined.

Lemma name_without_extension_rejected_witness :
  (∀ i, String.get (S i) (name Sample.hidden_file) ≠ Some "."%char)
  ∧ loop_body Sample.pandas Sample.all_on Sample.hidden_file (mkVars None false)
    = Next (mkVars None false) [Error (UnsupportedFileType EmptyString)].
Proof.
  split; [exact hidden_file_dots|].
  exact (name_without_extension_rejected Sample.pandas Sample.all_on
           Sample.hidden_file (mkVars None false) hidden_file_dots).
Defined.

Lemma export_same_format_keeps_name_witness :
  canonical_extension CSV = ".csv"
  ∧ export_file_name "a.csv.csv" ".csv" (option_text CSV) = "a.csv.csv".
Proof.
  split; [reflexivity|].
  exact (export_same_format_keeps_name "a.csv.csv" ".csv" CSV eq_refl).
Defined.

Lemma scores_csv_once :
  ∀ k, k < String.length "scores" →
       startswith (slice_from k ("scores" +:+ ".csv")) ".csv" = false.
Proof.
  intros k Hk. do 6 (destruct k as [|k]; [reflexivity|]). simpl in Hk. lia.
Defined.

Lemma export_name_trailing_extension_witness :
  ".csv" ∈ SUPPORTED_TYPES
  ∧ (∀ k, k < String.length "scores" →
          startswith (slice_from k ("scores" +:+ ".csv")) ".csv" = false)
  ∧ export_file_name "scores.csv" ".csv" (option_text Excel) = "scores.xlsx".
Proof.
  assert (Hext : ".csv" ∈ SUPPORTED_TYPES) by (apply supported_types; tauto).
  split; [exact Hext|]. split; [exact scores_csv_once|].
  exact (export_name_trailing_extension "scores" ".csv" Excel Hext
           scores_csv_once).
Defined.

Lemma upper_case_extension_absent :
  ∀ k, startswith (slice_from k "DATA.CSV") ".csv" = false.
Proof.
  intros k. do 9 (destruct k as [|k]; [reflexivity|]). reflexivity.
Defined.

Lemma export_name_unchanged_when_extension_absent_witness :
  (∀ k, startswith (slice_from k "DATA.CSV") ".csv" = false)
  ∧ export_file_name "DATA.CSV" ".csv" (option_text Excel) = "DATA.CSV".
Proof.
  split; [exact upper_case_extension_absent|].
  exact (export_name_unchanged_when_extension_absent "DATA.CSV" ".csv" Excel
           upper_case_extension_absent).
Defined.

(** *** What one file puts on the page (lines 70-136) *)

Section Page.

Context {number : Type} `{EqDecision number}.
Variable pd : PandasAPI number.
Variable st : StreamlitAPI.
Implicit Types (file : UploadedFile) (files : list UploadedFile)
  (v : @Vars number) (d : DataFrame number) (log : list (@Event number)).

Lemma filter_none {A : Type} (f : A → bool) (l : list A) :
  existsb f l = false → filter (fun x => f x = true) l = [].
Proof.
  induction l as [|x l IH]; [reflexivity|]. cbn [existsb].
  intros [Hx Hl]%orb_false_iff.
  rewrite filter_cons, decide_False by (rewrite Hx; discriminate).
  now apply IH.
Qed.

Lemma convert_downloads file (file_extension : string)
    (c : ConversionType) d v :
  length (filter (fun e => is_download e = true)
                 (snd (convert pd file file_extension c d v))) <= 1.
Proof.
  unfold convert. destruct (serialize pd c d) as [e|[data mime]]; cbn [snd].
  - rewrite filter_none by reflexivity. simpl. lia.
  - rewrite !filter_cons. simpl. lia.
Qed.

Lemma loop_body_downloads file v :
  length (filter (fun e => is_download e = true)
                 (shown (loop_body pd st file v))) <= 1.
Proof.
  destruct (decide (lower (snd (splitext (name file))) ∈ SUPPORTED_TYPES))
    as [Hext|Hext].
  - destruct (read_block_supported pd file _ Hext) as [[e|d] Hread].
    + rewrite (loop_body_read_error pd st file v e Hext Hread). simpl. lia.
    + destruct (empty d) eqn:Hempty.
      * rewrite (loop_body_read pd st file v d Hext Hread), Hempty. simpl. lia.
      * rewrite (loop_body_processed pd st file v d Hext Hread Hempty).
        cbn [shown]. rewrite filter_app.
        rewrite (filter_none _ _ (before_conversion_no_download pd st file d)).
        destruct (button st _); [apply convert_downloads | simpl; lia].
  - rewrite (loop_body_unsupported pd st file v Hext). simpl. lia.
Qed.

Lemma for_loop_downloads files v :
  length (filter (fun e => is_download e = true)
                 (shown (for_loop pd st files v))) <= length files.
Proof.
  rewrite (for_loop_log pd st files v v).
  induction files as [|file files IH]; [simpl; lia|].
  cbn [map concat length]. rewrite filter_app, length_app.
  pose proof (loop_body_downloads file v). lia.
Qed.


End Page.


(** ** The runs of the script *)

Section Runs.

Context {number : Type} `{EqDecision number}.
Variable pd : PandasAPI number.
Variable st : StreamlitAPI.
Variable py : PythonAPI.
Implicit Types (file : UploadedFile) (files : list UploadedFile)
  (v : @Vars number) (d : DataFrame number) (log : list (@Event number))
  (widgets : list string).





(** *** Duplicate removal (lines 78-84) *)





(** *** The fill where [fillna] refuses the text (line 89) *)

(** When nulls were counted and [fillna] refuses the text, the block raises
    what [fillna] raises. *)
Lemma fill_missing_values_block_raises d (e : Exception) :
  0 < isnull_sum_sum d →
  fillna_error pd d "Missing" = Some e →
  fill_missing_values_block pd d = inl e.
Proof.
  intros Hcount Herror. unfold fill_missing_values_block.
  destruct (Nat.ltb_spec 0 (isnull_sum_sum d)); [|lia].
  now rewrite Herror.
Qed.

(** Without nulls [fillna] is not called, whatever it would refuse. *)
Lemma fill_missing_values_block_nothing d :
  isnull_sum_sum d = 0 →
  fill_missing_values_block pd d = inr (d, [Write NoMissingValuesFound]).
Proof.
  intros Hcount. unfold fill_missing_values_block, fill_missing_values.
  now rewrite Hcount.
Qed.

(** *** Runs that stop, and runs that reach the end *)

(** What an iteration shows of a file before the cleaning. *)
Lemma iteration_read widgets file v d :
  str_lower py (snd (splitext (name file))) ∈ SUPPORTED_TYPES →
  read_block pd file (str_lower py (snd (splitext (name file))))
  = Some (inr d) →
  empty d = false →
  iteration pd st py widgets file v
  = let file_extension := str_lower py (snd (splitext (name file))) in
    let shown :=
      [Read (name file); Write (FileName (name file));
       Write (FileSize (size file)); Write Preview; Dataframe (head d)] in
    if bool_decide (name file ∈ widgets) then
      Raise (shown ++ [Subheader "Data Cleaning"])
            "StreamlitDuplicateElementId"
    else
      match data_cleaning_block pd st file d with
      | inl (cleaning_log, e) => Raise (shown ++ cleaning_log) e
      | inr (d', cleaning_log) =>
          Continue (name file :: widgets)
            (fst (convert_and_download pd st file file_extension d'
                    (mkVars (Some d') (file_processed v))))
            (shown ++ cleaning_log ++ data_visualization pd st file d'
               ++ snd (convert_and_download pd st file file_extension d'
                         (mkVars (Some d') (file_processed v))))
      end.
Proof.
  intros Hext Hread Hempty. unfold iteration.
  rewrite (bool_decide_eq_true_2 _ Hext), Hread. cbn [negb df].
  rewrite Hempty. cbv zeta.
  destruct (bool_decide (name file ∈ widgets)); [reflexivity|].
  destruct (data_cleaning_block pd st file d) as [[shown e]|[d' cleaning_log]];
    [reflexivity|].
  cbn [file_processed].
  now destruct (convert_and_download pd st file _ d' _).
Qed.

(** A file of a name whose widgets are on the page already stops the run
    at its first checkbox. *)
Lemma repeated_name_raises widgets file v d :
  read_with_rows pd py file d →
  name file ∈ widgets →
  iteration pd st py widgets file v
  = Raise [Read (name file); Write (FileName (name file));
           Write (FileSize (size file)); Write Preview; Dataframe (head d);
           Subheader "Data Cleaning"]
          "StreamlitDuplicateElementId".
Proof.
  intros (Hext & Hread & Hempty) Hname.
  rewrite (iteration_read _ _ _ d Hext Hread Hempty). cbv zeta.
  now rewrite (bool_decide_eq_true_2 _ Hname).
Qed.

(** An iteration that goes on keeps the names on the page and adds the
    name of a file it read into a table with rows. *)
Lemma iteration_widgets widgets file v widgets' v' log :
  iteration pd st py widgets file v = Continue widgets' v' log →
  (∀ x, x ∈ widgets → x ∈ widgets')
  ∧ (∀ d, read_with_rows pd py file d → name file ∈ widgets').
Proof.
  destruct (decide (str_lower py (snd (splitext (name file)))
                    ∈ SUPPORTED_TYPES)) as [Hext|Hext].
  - destruct (read_block_supported pd file _ Hext) as [[e|d] Hread].
    + unfold iteration.
      rewrite (bool_decide_eq_true_2 _ Hext), Hread. cbn [negb].
      intros [= <- _ _]. split; [auto|].
      intros d (_ & Hd & _). cbv zeta in Hd. congruence.
    + destruct (empty d) eqn:Hempty.
      * unfold iteration.
        rewrite (bool_decide_eq_true_2 _ Hext), Hread. cbn [negb df].
        rewrite Hempty. intros [= <- _ _]. split; [auto|].
        intros d0 (_ & Hd & Hrows). cbv zeta in Hd. congruence.
      * rewrite (iteration_read _ _ _ d Hext Hread Hempty). cbv zeta.
        destruct (bool_decide (name file ∈ widgets)); [discriminate|].
        destruct (data_cleaning_block pd st file d) as [[shown e]|[d' l]];
          [discriminate|].
        intros [= <- _ _]. split.
        -- intros x Hx. now apply list_elem_of_further.
        -- intros _ _. apply list_elem_of_here.
  - rewrite iteration_unsupported by exact Hext.
    intros [= <- _ _]. split; [auto|]. now intros d (Hd & _).
Qed.

Lemma repeated_name_later files file files' widgets v d :
  read_with_rows pd py file d →
  name file ∈ widgets →
  ∃ log e, script_loop pd st py widgets (files ++ file :: files') v
           = Raise log e.
Proof.
  intros Hfile. revert widgets v.
  induction files as [|f files IH]; intros widgets v Hname;
    cbn [app script_loop].
  - rewrite (repeated_name_raises _ _ _ d Hfile Hname). eauto.
  - destruct (iteration pd st py widgets f v) as [w1 v1 log1|log1 e]
      eqn:Hstep; [|eauto].
    destruct (IH w1 v1) as (log & e & ->).
    + now apply (proj1 (iteration_widgets _ _ _ _ _ _ Hstep)).
    + cbn [following]. eauto.
Qed.

Lemma main_raised files (log : list (@Event number)) (e : Exception) :
  script_loop pd st py [] files (mkVars None false) = Raise log e →
  main pd st py files = Raised log e.
Proof.
  destruct files as [|file files]; [discriminate|].
  intros Hloop. unfold main. now rewrite Hloop.
Qed.

(** X17.  The widgets of a file are named by the file name alone, so a
    batch cannot hold a name twice: when two of its files have one name
    and each is read into a table with rows, the run ends in an uncaught
    exception (of the second of them at the latest, at its first
    checkbox), and the script does not reach its aggregate message. *)
Theorem same_name_twice_raises files1 file1 files2 file2 files3 d1 d2 :
  name file1 = name file2 →
  read_with_rows pd py file1 d1 →
  read_with_rows pd py file2 d2 →
  ∃ log e,
    main pd st py (files1 ++ file1 :: files2 ++ file2 :: files3)
    = Raised log e.
Proof.
  intros Hsame Hfile1 Hfile2.
  assert (Hloop : ∀ widgets v, ∃ log e,
            script_loop pd st py widgets
              (files1 ++ file1 :: files2 ++ file2 :: files3) v
            = Raise log e).
  { induction files1 as [|f files1 IH]; intros widgets v;
      cbn [app script_loop].
    - destruct (iteration pd st py widgets file1 v) as [w1 v1 log1|log1 e]
        eqn:Hstep; [|eauto].
      destruct (repeated_name_later files2 file2 files3 w1 v1 d2 Hfile2)
        as (log & e & ->).
      + rewrite <- Hsame.
        apply (proj2 (iteration_widgets _ _ _ _ _ _ Hstep) d1 Hfile1).
      + cbn [following]. eauto.
    - destruct (iteration pd st py widgets f v) as [w1 v1 log1|log1 e];
        [|eauto].
      destruct (IH w1 v1) as (log & e & ->). cbn [following]. eauto. }
  destruct (Hloop [] (mkVars None false)) as (log & e & Hraise).
  exists log, e. now apply main_raised.
Qed.

(** X18.  When the box for removing duplicates is ticked on a table that
    holds an unhashable cell (a list or an object read from JSON),
    [duplicated] raises and, line 79 standing outside every [try], the run
    stops right after the checkbox. *)
Theorem unhashable_cell_raises widgets file v d :
  read_with_rows pd py file d →
  name file ∉ widgets →
  checkbox st ("Remove Duplicates from " +:+ name file) = true →
  all_hashable d = false →
  iteration pd st py widgets file v
  = Raise [Read (name file); Write (FileName (name file));
           Write (FileSize (size file)); Write Preview; Dataframe (head d);
           Subheader "Data Cleaning";
           Checkbox ("Remove Duplicates from " +:+ name file)]
          "unhashable type".
Proof.
  intros (Hext & Hread & Hempty) Hname Hticked Hcell.
  rewrite (iteration_read _ _ _ d Hext Hread Hempty). cbv zeta.
  rewrite (bool_decide_eq_false_2 _ Hname).
  unfold data_cleaning_block, remove_duplicates_block.
  now rewrite Hticked, Hcell.
Qed.

Lemma data_cleaning_block_succeeds file d :
  (checkbox st ("Remove Duplicates from " +:+ name file) = true →
   all_hashable d = true) →
  (∀ d1, fillna_error pd d1 "Missing" = None) →
  ∃ d' log, data_cleaning_block pd st file d = inr (d', log).
Proof.
  intros Hd Hfill.
  assert (Hblock : ∀ d1, ∃ d2 log2,
            fill_missing_values_block pd d1 = inr (d2, log2)).
  { intros d1. unfold fill_missing_values_block. rewrite Hfill.
    destruct (fill_missing_values d1) as [d2 log2].
    destruct (0 <? isnull_sum_sum d1)%nat; eauto. }
  unfold data_cleaning_block, remove_duplicates_block.
  destruct (checkbox st ("Remove Duplicates from " +:+ name file)).
  - rewrite Hd by reflexivity.
    destruct (remove_duplicates pd d) as [d1 log1].
    destruct (checkbox st ("Fill Missing Values for " +:+ name file));
      [|eauto].
    destruct (Hblock d1) as (d2 & log2 & ->). eauto.
  - destruct (checkbox st ("Fill Missing Values for " +:+ name file));
      [|eauto].
    destruct (Hblock d) as (d2 & log2 & ->). eauto.
Qed.

Lemma iteration_continues widgets file v :
  name file ∉ widgets →
  hashable_when_read pd st file →
  (∀ d, fillna_error pd d "Missing" = None) →
  ∃ widgets' v' log,
    iteration pd st py widgets file v = Continue widgets' v' log
    ∧ ∀ x, x ∈ widgets' → x = name file ∨ x ∈ widgets.
Proof.
  intros Hname Hd Hfill.
  destruct (decide (str_lower py (snd (splitext (name file)))
                    ∈ SUPPORTED_TYPES)) as [Hext|Hext].
  - destruct (read_block_supported pd file _ Hext) as [[e|d] Hread].
    + unfold iteration.
      rewrite (bool_decide_eq_true_2 _ Hext), Hread. cbn [negb]. eauto 6.
    + destruct (empty d) eqn:Hempty.
      * unfold iteration.
        rewrite (bool_decide_eq_true_2 _ Hext), Hread. cbn [negb df].
        rewrite Hempty. eauto 6.
      * rewrite (iteration_read _ _ _ d Hext Hread Hempty). cbv zeta.
        rewrite (bool_decide_eq_false_2 _ Hname).
        destruct (data_cleaning_block_succeeds file d (Hd _ _ Hread) Hfill)
          as (d' & log & ->).
        do 3 eexists. split; [reflexivity|].
        intros x [->|Hx]%elem_of_cons; auto.
  - rewrite iteration_unsupported by exact Hext. eauto 6.
Qed.

Lemma script_loop_continues files widgets v :
  NoDup (map name files) →
  (∀ file, file ∈ files → name file ∉ widgets) →
  (∀ file, file ∈ files → hashable_when_read pd st file) →
  (∀ d, fillna_error pd d "Missing" = None) →
  ∃ widgets' v' log,
    script_loop pd st py widgets files v = Continue widgets' v' log.
Proof.
  intros Hnames Hfresh Hd Hfill. revert widgets v Hfresh.
  induction files as [|file files IH]; intros widgets v Hfresh;
    cbn [script_loop]; [eauto|].
  apply NoDup_cons in Hnames as [Hfile Hnames].
  destruct (iteration_continues widgets file v) as (w1 & v1 & log1 & -> & Hw1);
    [apply Hfresh, list_elem_of_here | apply Hd, list_elem_of_here
     | exact Hfill |].
  destruct (IH Hnames (fun f Hf => Hd f (list_elem_of_further _ _ _ Hf)) w1 v1)
    as (w2 & v2 & log2 & ->).
  - intros f Hf [Hsame|Hx]%Hw1.
    + apply Hfile. rewrite <- Hsame.
      change (map name files) with (name <$> files).
      now apply list_elem_of_fmap_2.
    + now apply (Hfresh f (list_elem_of_further _ _ _ Hf)).
  - cbn [following]. eauto.
Qed.

(** X19.  A batch runs to the end of the script whenever its file names
    are distinct, the tables read with the duplicates box ticked hold
    hashable cells only, and [fillna] takes the text. *)
Theorem distinct_names_complete files :
  NoDup (map name files) →
  (∀ file, file ∈ files → hashable_when_read pd st file) →
  (∀ d, fillna_error pd d "Missing" = None) →
  ∃ out, main pd st py files = Completed out.
Proof.
  intros Hnames Hd Hfill. unfold main.
  destruct files as [|file files]; [eauto|].
  destruct (script_loop_continues (file :: files) [] (mkVars None false)
              Hnames) as (widgets & v & log & ->);
    [intros f _; apply not_elem_of_nil | exact Hd | exact Hfill | eauto].
Qed.

End Runs.

(** ** The sample runs *)

Section Samples.

Import Sample.

(** C2.  The fill block fills only where [fillna] takes the text.  The
    table [scores] has one null cell, in its numeric
    column.  Under a pandas that refuses a text for a numeric column the
    block raises instead of filling: no count is reported and no cell is
    replaced; and as line 89 stands outside every [try], the iteration of
    the file ends with that exception right after the checkbox.  Under a
    pandas that takes the text the same table is filled and the count is
    reported. *)
Theorem fill_missing_values_raises :
  null_cells scores = 1
  ∧ fill_missing_values_block pandas3 scores = inl refused
  ∧ iteration pandas3 all_on python [] good_file (mkVars None false)
    = Raise [Read "scores.csv"; Write (FileName "scores.csv");
             Write (FileSize 30); Write Preview; Dataframe scores;
             Subheader "Data Cleaning";
             Checkbox "Remove Duplicates from scores.csv";
             Write (DuplicatesRemoved 1);
             Checkbox "Fill Missing Values for scores.csv"]
            refused
  ∧ fill_missing_values_block pandas scores
    = inr (mkDataFrame ["id"; "score"]
             [[Text "a"; Number 7%Z]; [Text "a"; Number 7%Z];
              [Text "b"; Text "Missing"]],
           [Write (MissingValuesFilled 1)]).
Proof. repeat split. Qed.

(** C7.  The table [scores] has a numeric column with a null.  With the
    fill ticked and JSON chosen, under a pandas that refuses a text for a
    numeric column the run of the script ends with the exception of line
    89: no download is offered, so no JSON is produced at all, and no
    aggregate message is shown.  Under a pandas that takes the text the
    run completes and offers the JSON array of the filled table, in which
    the member of the formerly null cell is printed with the string
    "Missing". *)
Theorem filled_numeric_column_not_exported :
  let run := main pandas3 all_on python [good_file] in
  let text := json_array (json_number pandas) 4 (to_records cleaned) in
  (∃ log, run = Raised log refused)
  ∧ existsb is_download (page run) = false
  ∧ existsb is_aggregate (page run) = false
  ∧ (∃ log, main pandas all_on python [good_file] = Completed log
            ∧ DownloadButton (encode_utf8 text) "scores.json"
                             "application/json" ∈ log)
  ∧ occurs_in ("        " +:+ json_string "score" +:+ ":"
                 +:+ quote +:+ "Missing" +:+ quote)
              text.
Proof.
  cbv zeta. split; [eexists; reflexivity|].
  split; [reflexivity|]. split; [reflexivity|]. split.
  - eexists. split; [reflexivity|].
    apply list_elem_of_In. vm_compute. tauto.
  - apply (json_array_member pandas cleaned 1 1 ("score", Text "Missing")
             [("id", Text "b"); ("score", Text "Missing")]);
      reflexivity.
Qed.

Lemma python_lowers_extensions : lowers_extensions python.
Proof. intros s x _. reflexivity. Defined.


Lemma unsupported_extension_rejected_witness :
  lowers_extensions python
  ∧ iteration pandas all_on python [] unsupported_file (mkVars None false)
    = Continue [] (mkVars None false) [Error (UnsupportedFileType ".pdf")]
  ∧ spells (snd (splitext (name capitals_file))) ".csv" = true
  ∧ read_block pandas capitals_file ".csv" = Some (inr scores).
Proof.
  split; [exact python_lowers_extensions|]. split; [|split; [reflexivity|]].
  - destruct (unsupported_extension_rejected python pandas all_on []
                unsupported_file (mkVars None false) []
                python_lowers_extensions)
      as (_ & _ & _ & _ & _ & _ & _ & Hrejected).
    exact (proj1 (Hrejected pdf_unsupported)).
  - destruct (unsupported_extension_rejected python pandas all_on []
                capitals_file (mkVars None false) []
                python_lowers_extensions)
      as (_ & _ & _ & Hcsv & _).
    exact (proj2 (Hcsv eq_refl)).
Defined.



Lemma fill_missing_values_idempotent_witness :
  fill_missing_values_block pandas deduplicated
  = inr (cleaned, [Write (MissingValuesFilled 1)])
  ∧ isnull_sum_sum cleaned = 0
  ∧ fill_missing_values_block pandas cleaned
    = inr (cleaned, [Write NoMissingValuesFound]).
Proof.
  split; [reflexivity|].
  exact (fill_missing_values_idempotent pandas deduplicated cleaned
           [Write (MissingValuesFilled 1)] eq_refl).
Defined.

Lemma data_cleaning_keeps_shape_witness :
  rectangular scores
  ∧ empty scores = false
  ∧ (∃ log, data_cleaning_block pandas all_on good_file scores
            = inr (cleaned, log))
  ∧ rectangular cleaned
  ∧ empty cleaned = false.
Proof.
  assert (Hrun : ∃ log, data_cleaning_block pandas all_on good_file scores
                        = inr (cleaned, log)) by (eexists; reflexivity).
  split; [exact scores_rectangular|]. split; [reflexivity|].
  split; [exact Hrun|]. destruct Hrun as [log Hrun].
  destruct (data_cleaning_keeps_shape pandas all_on good_file scores cleaned
              log scores_rectangular eq_refl Hrun)
    as (_ & Hshape & _ & Hempty).
  split; [exact Hshape | exact Hempty].
Defined.

Lemma good_file_read : read_with_rows pandas python good_file scores.
Proof.
  split; [apply supported_types; vm_compute; tauto|]. split; reflexivity.
Defined.

Lemma orders_file_read : read_with_rows nested_pandas python orders_file orders.
Proof.
  split; [apply supported_types; vm_compute; tauto|]. split; reflexivity.
Defined.

Lemma sample_tables_hashable (file : UploadedFile) :
  hashable_when_read pandas all_on file.
Proof.
  assert (Hreader : ∀ d, reader file = inr d → all_hashable d = true).
  { intros d. unfold reader.
    destruct (String.eqb (content file) "oops"); [discriminate|].
    destruct (String.eqb (content file) EmptyString); now intros [= <-]. }
  intros x d Hread _. apply Hreader. revert Hread. unfold read_block.
  repeat (destruct (String.eqb x _); [now intros [= ->]|]).
  discriminate.
Defined.

Lemma same_name_twice_raises_witness :
  name good_file = name good_file
  ∧ read_with_rows pandas python good_file scores
  ∧ (∃ log e, main pandas all_on python [good_file; good_file] = Raised log e)
  ∧ ∃ log, main pandas all_on python [good_file; good_file]
           = Raised log "StreamlitDuplicateElementId".
Proof.
  split; [reflexivity|]. split; [exact good_file_read|].
  split; [|eexists; reflexivity].
  exact (same_name_twice_raises pandas all_on python [] good_file []
           good_file [] scores scores eq_refl good_file_read good_file_read).
Defined.

Lemma unhashable_cell_raises_witness :
  read_with_rows nested_pandas python orders_file orders
  ∧ all_hashable orders = false
  ∧ iteration nested_pandas all_on python [] orders_file (mkVars None false)
    = Raise [Read "orders.json"; Write (FileName "orders.json");
             Write (FileSize 40); Write Preview; Dataframe orders;
             Subheader "Data Cleaning";
             Checkbox "Remove Duplicates from orders.json"]
            "unhashable type".
Proof.
  split; [exact orders_file_read|]. split; [reflexivity|].
  exact (unhashable_cell_raises nested_pandas all_on python [] orders_file
           (mkVars None false) orders orders_file_read
           (not_elem_of_nil _) eq_refl eq_refl).
Defined.

Lemma distinct_names_complete_witness :
  let files := [unsupported_file; broken_file; empty_file; good_file] in
  NoDup (map name files)
  ∧ (∀ file, file ∈ files → hashable_when_read pandas all_on file)
  ∧ (∀ d, fillna_error pandas d "Missing" = None)
  ∧ ∃ out, main pandas all_on python files = Completed out.
Proof.
  cbv zeta.
  assert (Hnames : NoDup (map name [unsupported_file; broken_file;
                                    empty_file; good_file])).
  { apply (bool_decide_unpack _). vm_compute. reflexivity. }
  split; [exact Hnames|].
  split; [intros file _; apply sample_tables_hashable|].
  split; [reflexivity|].
  apply (distinct_names_complete pandas all_on python _ Hnames);
    [intros file _; apply sample_tables_hashable | reflexivity].
Defined.

End Samples.
